(** * build_auto.py: LLVM root detection and build-file generation

    A shallow embedding of [scripts/build_auto.py] and the properties of
    its four steps: [detect_llvm_path], [generate_llvm_libs_rsp],
    [generate_rebuild_auto_bat] and [main].

    Conventions of the model.
    - A Python [str] is a [string]; a character is a code point below 256.
    - A [pathlib.Path] is a [path] in the Windows flavour the script is
      written for (drive letter, root, components; both separators).
      UNC prefixes are not modelled.
    - The file system is a finite map from paths to nodes.  Two distinct
      path values are distinct files (no symbolic links, no case folding).
    - [read_text]/[write_text] exchange the text as Python sees it
      (newline translation is not modelled); both raise on a directory.
    - What [print] writes is recorded as a structured [message]. *)

From Stdlib Require Import ZArith NArith String Ascii List Bool Lia Sorted Permutation.
From stdpp Require Import base decidable option list gmap strings.

Local Open Scope string_scope.
Local Open Scope list_scope.

Local Arguments String.append !_ _ / : simpl nomatch.

(** ** Python [str] operations *)

Module Text.

Definition code (c : ascii) : N := N_of_ascii c.

(** The characters [str.splitlines] breaks at (code points below 256). *)
Definition is_linebreak (c : ascii) : bool :=
  let n := code c in
  ((10 <=? n) && (n <=? 13) || (28 <=? n) && (n <=? 30) || (n =? 133))%N.

(** The characters [str.strip()] removes (code points below 256). *)
Definition is_space (c : ascii) : bool :=
  let n := code c in
  ((9 <=? n) && (n <=? 13) || (28 <=? n) && (n <=? 32) || (n =? 133) || (n =? 160))%N.

Definition is_quote (c : ascii) : bool := (code c =? 34)%N.
Definition is_lf (c : ascii) : bool := (code c =? 10)%N.
Definition is_cr (c : ascii) : bool := (code c =? 13)%N.

Definition lf : ascii := "010"%char.
Definition quote : ascii := "034"%char.

(** [bool(s)] *)
Definition truthy (s : string) : bool := negb (s =? "").

(** [s.splitlines()] *)
Fixpoint splitlines (s : string) : list string :=
  match s with
  | "" => []
  | String c s' =>
      if is_linebreak c then
        "" :: (if is_cr c then
                 match s' with
                 | String c2 s'' => if is_lf c2 then splitlines s'' else splitlines s'
                 | "" => []
                 end
               else splitlines s')
      else
        match splitlines s' with
        | [] => [String c ""]
        | l :: ls => String c l :: ls
        end
  end.

(** [s.split(sep)] for a one-character separator class. *)
Fixpoint split_on (sep : ascii -> bool) (s : string) : list string :=
  match s with
  | "" => [""]
  | String c s' =>
      if sep c then "" :: split_on sep s'
      else
        match split_on sep s' with
        | [] => [String c ""]
        | l :: ls => String c l :: ls
        end
  end.

(** [sep.join(l)] *)
Fixpoint join (sep : string) (l : list string) : string :=
  match l with
  | [] => ""
  | [x] => x
  | x :: rest => x +:+ sep +:+ join sep rest
  end.

Fixpoint lstrip (P : ascii -> bool) (s : string) : string :=
  match s with
  | "" => ""
  | String c s' => if P c then lstrip P s' else s
  end.

Fixpoint rstrip (P : ascii -> bool) (s : string) : string :=
  match s with
  | "" => ""
  | String c s' =>
      match rstrip P s' with
      | "" => if P c then "" else String c ""
      | r => String c r
      end
  end.

(** [s.strip()] is [strip is_space s]; stripping the double-quote
    character is [strip is_quote s]. *)
Definition strip (P : ascii -> bool) (s : string) : string :=
  rstrip P (lstrip P s).

(** [s.startswith(p)] *)
Definition startswith (p s : string) : bool := String.prefix p s.

(** [s.endswith(suf)] *)
Fixpoint endswith (suf s : string) : bool :=
  (s =? suf) ||
  match s with
  | "" => false
  | String _ s' => endswith suf s'
  end.

Definition lower_char (c : ascii) : ascii :=
  let n := code c in
  if ((65 <=? n) && (n <=? 90))%N then ascii_of_N (n + 32) else c.

(** [s.lower()] on the ASCII letters. *)
Fixpoint lower (s : string) : string :=
  match s with
  | "" => ""
  | String c s' => String (lower_char c) (lower s')
  end.

Fixpoint all_chars (P : ascii -> bool) (s : string) : bool :=
  match s with
  | "" => true
  | String c s' => P c && all_chars P s'
  end.

(** Insertion of a string into a list sorted by code points. *)
Fixpoint insert_sorted (x : string) (l : list string) : list string :=
  match l with
  | [] => [x]
  | y :: l' => if String.leb x y then x :: l else y :: insert_sorted x l'
  end.

(** [sorted(l)] for a list of strings. *)
Definition sorted (l : list string) : list string :=
  fold_right insert_sorted [] l.

End Text.

(** ** [pathlib] paths, Windows flavour *)

Record path := mk_path {
  drive : string;        (* the empty string, or a letter and a colon *)
  root : bool;           (* does a separator follow the drive? *)
  parts : list string    (* the components after the anchor *)
}.

Global Instance path_eq_dec : EqDecision path.
Proof. solve_decision. Defined.

Global Instance path_countable : Countable path.
Proof.
  refine (inj_countable' (fun p => (drive p, root p, parts p))
                         (fun t => mk_path t.1.1 t.1.2 t.2) _).
  intros []; reflexivity.
Defined.

Definition is_sep (c : ascii) : bool :=
  (Text.code c =? 92)%N || (Text.code c =? 47)%N.

Definition is_letter (c : ascii) : bool :=
  let n := Text.code c in
  ((65 <=? n) && (n <=? 90) || (97 <=? n) && (n <=? 122))%N.

Definition is_colon (c : ascii) : bool := (Text.code c =? 58)%N.

Definition sep : string := "\".

(** Splits a leading drive (a letter and a colon) off a text. *)
Definition split_drive (s : string) : string * string :=
  match s with
  | String c (String k r) =>
      if is_letter c && is_colon k then (String c (String k ""), r) else ("", s)
  | _ => ("", s)
  end.

Definition real_part (x : string) : bool := negb ((x =? "") || (x =? ".")).

(** [Path(s)]: the drive, whether a separator follows it, and the
    components, empty components and single dots dropped. *)
Definition Path (s : string) : path :=
  let '(drv, rest) := split_drive s in
  {| drive := drv;
     root := match rest with String c _ => is_sep c | "" => false end;
     parts := List.filter real_part (Text.split_on is_sep rest) |}.

(** [str(p)] *)
Definition path_str (p : path) : string :=
  let s := drive p +:+ (if root p then sep else "") +:+ Text.join sep (parts p) in
  if s =? "" then "." else s.

(** [p / s]: a segment with another drive replaces [p]; a rooted segment
    replaces everything after the drive; any other segment is appended. *)
Definition joinpath (p : path) (s : string) : path :=
  let q := Path s in
  if Text.truthy (drive q) && negb (Text.lower (drive q) =? Text.lower (drive p)) then q
  else if root q then
    {| drive := if Text.truthy (drive q) then drive q else drive p;
       root := true; parts := parts q |}
  else {| drive := drive p; root := root p; parts := parts p ++ parts q |}.

Infix "</>" := joinpath (at level 40, left associativity).

(** [p.name] *)
Definition name (p : path) : string := List.last (parts p) "".

(** [p.parent] *)
Definition parent (p : path) : path :=
  {| drive := drive p; root := root p; parts := removelast (parts p) |}.

(** The text of [s] from its last dot on, the empty string without one. *)
Fixpoint from_last_dot (s : string) : string :=
  match s with
  | "" => ""
  | String c s' =>
      match from_last_dot s' with
      | "" => if (Text.code c =? 46)%N then s else ""
      | r => r
      end
  end.

(** [p.suffix]: the last dot of the name must be neither its first nor
    its last character. *)
Definition suffix (p : path) : string :=
  match name p with
  | "" => ""
  | String _ tl =>
      let r := from_last_dot tl in
      if (String.length r <=? 1)%nat then "" else r
  end.

(** ** The world the script runs in *)

Inductive node :=
  | File (content : string)
  | Dir.

(** What the script prints, one constructor per [print] call, with the
    values its text is formatted from. *)
Inductive message :=
  (* Warning: [count] libs not found under [lib_dir]: [preview]... *)
  | Warning_libs_not_found (count : nat) (lib_dir : path) (preview : list string)
  (* Wrote [rsp] ([libs] libs) *)
  | Wrote_rsp (rsp : path) (libs : nat)
  (* Wrote [bat] with LLVM_DIR=[llvm_root] *)
  | Wrote_bat (bat : path) (llvm_root : path)
  (* Running [bat] ... *)
  | Running (bat : path)
  (* Using LLVM: [llvm_root] *)
  | Using_LLVM (llvm_root : path)
  (* Skipping build (--no-run). Run rebuild_auto.bat to build. *)
  | Skipping_build
  (* the three lines written to the error stream when no root is found *)
  | Error_could_not_detect
  | Hint_set_environment
  | Hint_run_with_llvm.

Inductive exn :=
  | FileNotFoundError (msg : string)
  | ValueError (msg : string)
  | IsADirectoryError (p : path).

Record world := mk_world {
  files : gmap path node;
  environ : gmap string string;                   (* os.environ *)
  argv : list string;                             (* sys.argv *)
  SCRIPT_DIR : path;
  os_resolve : path -> path;                      (* Path.resolve *)
  where_clang : option (Z * string);              (* returncode and stdout of
                                                     the clang query; None
                                                     when the call raises *)
  shell : path -> gmap path node -> Z * gmap path node;
                                                  (* subprocess.call *)
  stdout : list message;
  stderr : list message
}.

Definition LLVM_LIBS_RSP (w : world) : path := SCRIPT_DIR w </> "llvm_libs.rsp".
Definition REBUILD_ALL_BAT (w : world) : path := SCRIPT_DIR w </> "rebuild_all.bat".
Definition REBUILD_AUTO_BAT (w : world) : path := SCRIPT_DIR w </> "rebuild_auto.bat".

Definition set_files (fs : gmap path node) (w : world) : world :=
  mk_world fs (environ w) (argv w) (SCRIPT_DIR w) (os_resolve w)
           (where_clang w) (shell w) (stdout w) (stderr w).

Definition add_stdout (m : message) (w : world) : world :=
  mk_world (files w) (environ w) (argv w) (SCRIPT_DIR w) (os_resolve w)
           (where_clang w) (shell w) (stdout w ++ [m]) (stderr w).

Definition add_stderr (m : message) (w : world) : world :=
  mk_world (files w) (environ w) (argv w) (SCRIPT_DIR w) (os_resolve w)
           (where_clang w) (shell w) (stdout w) (stderr w ++ [m]).

(** [p.exists()] *)
Definition exists_ (w : world) (p : path) : bool :=
  match files w !! p with Some _ => true | None => false end.

(** [p.is_dir()] *)
Definition is_dir (w : world) (p : path) : bool :=
  match files w !! p with Some Dir => true | _ => false end.

Definition child_of (d q : path) : bool :=
  bool_decide (parent q = d) && negb (bool_decide (parts q = [])).

(** [p.iterdir()], in the order of the directory. *)
Definition iterdir (w : world) (d : path) : list path :=
  List.filter (child_of d) (map fst (map_to_list (files w))).

(** [Path(s).resolve()] *)
Definition resolve (w : world) (s : string) : path := os_resolve w (Path s).

(** ** A state and exception monad for the generation steps *)

Definition M (A : Type) : Type := world -> (exn + A) * world.

Definition ret {A} (a : A) : M A := fun w => (inr a, w).
Definition raise {A} (e : exn) : M A := fun w => (inl e, w).
Definition bind {A B} (m : M A) (k : A -> M B) : M B :=
  fun w => match m w with
           | (inl e, w') => (inl e, w')
           | (inr a, w') => k a w'
           end.
Definition get : M world := fun w => (inr w, w).
Definition print (m : message) : M unit := fun w => (inr tt, add_stdout m w).
Definition eprint (m : message) : M unit := fun w => (inr tt, add_stderr m w).

Notation "x <- m ;; k" := (bind m (fun x => k))
  (at level 100, m at next level, right associativity).
Notation "m ;;; k" := (bind m (fun _ => k))
  (at level 100, right associativity).

(** [p.read_text()] of an existing path. *)
Definition read_text (p : path) : M string :=
  fun w => match files w !! p with
           | Some (File s) => (inr s, w)
           | Some Dir => (inl (IsADirectoryError p), w)
           | None => (inl (FileNotFoundError (path_str p)), w)
           end.

(** [p.write_text(s)]: the file is created or replaced as a whole; a
    directory in its place makes the call raise and is left alone. *)
Definition write_text (p : path) (s : string) : M unit :=
  fun w => match files w !! p with
           | Some Dir => (inl (IsADirectoryError p), w)
           | _ => (inr tt, set_files (<[p := File s]> (files w)) w)
           end.

(** ** [detect_llvm_path] *)

Definition has_core_lib (w : world) (p : path) : bool :=
  exists_ w (p </> "lib" </> "LLVMCore.lib").

Definition has_include_llvm (w : world) (p : path) : bool :=
  exists_ w (p </> "include" </> "llvm").

(** Truth value of an argument of type [str | None]. *)
Definition supplied (o : option string) : option string :=
  match o with
  | Some s => if Text.truthy s then Some s else None
  | None => None
  end.

(** 1. Explicit override *)
Definition from_override (w : world) (s : string) : option path :=
  let p := resolve w s in
  if has_core_lib w p then Some p
  else if has_include_llvm w p then Some p
  else None.

Definition ENV_NAMES : list string := ["LLVM_PATH"; "LLVM_DIR"; "LLVM_HOME"].

(** 2. Environment: the loop over the variable names. *)
Fixpoint from_environment (w : world) (names : list string) : option path :=
  match names with
  | [] => None
  | env :: rest =>
      match supplied (environ w !! env) with
      | Some v =>
          let p := resolve w v in
          if has_core_lib w p || has_include_llvm w p then Some p
          else from_environment w rest
      | None => from_environment w rest
      end
  end.

Definition candidates : list path :=
  [Path "C:\LLVM-dev"; Path "C:\Program Files\LLVM"; Path "C:\llvm"].

(** The body of the loop for a base directory that exists. *)
Definition examine_base (w : world) (base : path) : option path :=
  if is_dir w base then
    if has_core_lib w base then Some base
    else List.find (fun sub => is_dir w sub && has_core_lib w sub) (iterdir w base)
  else None.

(** 3. Common locations: the loop leaves at the first base that exists. *)
Fixpoint from_common_locations (w : world) (cands : list path) : option path :=
  match cands with
  | [] => None
  | base :: rest =>
      if negb (exists_ w base) then from_common_locations w rest
      else examine_base w base
  end.

(** 4. From clang in PATH; every exception is swallowed. *)
Definition from_clang (w : world) : option path :=
  match where_clang w with
  | None => None
  | Some (returncode, out) =>
      if (returncode =? 0)%Z && Text.truthy (Text.strip Text.is_space out) then
        match Text.splitlines (Text.strip Text.is_space out) with
        | [] => None
        | l :: _ =>
            let first := Text.strip Text.is_space l in
            let clang_path := Path first in
            let sfx := Text.lower (suffix clang_path) in
            if (sfx =? ".exe") || (sfx =? "") then
              let root := parent (parent clang_path) in
              if has_core_lib w root then Some root else None
            else None
        end
      else None
  end.

Definition detect_llvm_path (w : world) (override : option string) : option path :=
  match supplied override with
  | Some s => from_override w s
  | None =>
      match from_environment w ENV_NAMES with
      | Some p => Some p
      | None =>
          match from_common_locations w candidates with
          | Some p => Some p
          | None => from_clang w
          end
      end
  end.

(** ** [generate_llvm_libs_rsp] *)

Definition nl : string := String Text.lf "".

(** The body of the loop over the lines of an existing manifest: the
    basename the line contributes, if any. *)
Definition basename_of_line (line : string) : option string :=
  let line := Text.strip Text.is_quote (Text.strip Text.is_space line) in
  if negb (Text.truthy line) || Text.startswith "#" line then None
  else
    let name := name (Path line) in
    if Text.endswith ".lib" name then Some name else None.

Definition read_basenames (content : string) : list string :=
  omap basename_of_line (Text.splitlines content).

(** Does a directory entry match the pattern LLVM*.lib?  The match
    ignores case, as [glob] does for Windows paths. *)
Definition glob_match (n : string) : bool :=
  let n := Text.lower n in
  Text.startswith "llvm" n && Text.endswith ".lib" n && (8 <=? String.length n)%nat.

(** [lib_dir.glob(pattern)] for that pattern *)
Definition glob_llvm_libs (w : world) (lib_dir : path) : list path :=
  List.filter (fun p => glob_match (name p)) (iterdir w lib_dir).

(** The basename list: the one of the existing manifest, or the scan of
    the library directory when that list is empty. *)
Definition choose_basenames (w : world) (lib_dir : path) (from_file : list string)
  : list string :=
  match from_file with
  | [] => Text.sorted (map name (glob_llvm_libs w lib_dir))
  | _ => from_file
  end.

(** One line of the manifest: the quoted path of a library. *)
Definition rsp_line (lib_dir : path) (name : string) : string :=
  String Text.quote (path_str (lib_dir </> name)) +:+ String Text.quote "".

Definition generate_llvm_libs_rsp (llvm_root : path) : M unit :=
  w <- get ;;
  let lib_dir := llvm_root </> "lib" in
  if negb (exists_ w lib_dir) then
    raise (FileNotFoundError ("LLVM lib directory not found: " +:+ path_str lib_dir))
  else
    from_file <- (if exists_ w (LLVM_LIBS_RSP w)
                  then (content <- read_text (LLVM_LIBS_RSP w) ;;
                        ret (read_basenames content))
                  else ret []) ;;
    let lib_basenames := choose_basenames w lib_dir from_file in
    let lines :=
      map (rsp_line lib_dir)
          (List.filter (fun n => exists_ w (lib_dir </> n)) lib_basenames) in
    let missing :=
      List.filter (fun n => negb (exists_ w (lib_dir </> n))) lib_basenames in
    (match missing with
     | [] => ret tt
     | _ => print (Warning_libs_not_found (length missing) lib_dir (firstn 5 missing))
     end) ;;;
    write_text (LLVM_LIBS_RSP w) (Text.join nl lines +:+ nl) ;;;
    print (Wrote_rsp (LLVM_LIBS_RSP w) (length lines)).

(** ** [generate_rebuild_auto_bat] *)

(** The regular expression, in multi-line mode, matches a whole line of
    the text (lines being separated by line feeds) that starts with the
    words below. *)
Definition sets_LLVM_DIR (line : string) : bool :=
  Text.startswith "set LLVM_DIR=" line.

Definition lines_of (content : string) : list string :=
  Text.split_on Text.is_lf content.

(** [pattern.search(content)] as a truth value *)
Definition pattern_search (content : string) : bool :=
  existsb sets_LLVM_DIR (lines_of content).

Fixpoint replace_first (new_line : string) (ls : list string) : list string :=
  match ls with
  | [] => []
  | l :: rest =>
      if sets_LLVM_DIR l then new_line :: rest
      else l :: replace_first new_line rest
  end.

(** [pattern.sub(lambda m: new_line, content, count=1)] *)
Definition pattern_sub_once (new_line content : string) : string :=
  Text.join nl (replace_first new_line (lines_of content)).

Definition generate_rebuild_auto_bat (llvm_root : path) : M unit :=
  w <- get ;;
  if negb (exists_ w (REBUILD_ALL_BAT w)) then
    raise (FileNotFoundError ("Template not found: " +:+ path_str (REBUILD_ALL_BAT w)))
  else
    content <- read_text (REBUILD_ALL_BAT w) ;;
    let new_line := "set LLVM_DIR=" +:+ path_str llvm_root in
    if negb (pattern_search content) then
      raise (ValueError "Could not find 'set LLVM_DIR=...' in rebuild_all.bat")
    else
      write_text (REBUILD_AUTO_BAT w) (pattern_sub_once new_line content) ;;;
      print (Wrote_bat (REBUILD_AUTO_BAT w) llvm_root).

(** ** [run_build] and [main] *)

Definition subprocess_call (script : path) : M Z :=
  fun w => let '(code, fs) := shell w script (files w) in (inr code, set_files fs w).

Definition run_build : M Z :=
  w <- get ;;
  print (Running (REBUILD_AUTO_BAT w)) ;;;
  subprocess_call (REBUILD_AUTO_BAT w).

(** The loop of [main] over [sys.argv] that looks for the override. *)
Fixpoint parse_llvm (args : list string) (llvm_override : option string)
  : option string :=
  match args with
  | [] => llvm_override
  | a :: tl =>
      match tl with
      | b :: rest =>
          if a =? "--llvm" then parse_llvm rest (Some b)
          else parse_llvm tl llvm_override
      | [] => llvm_override
      end
  end.

Definition main : M Z :=
  w <- get ;;
  let no_run := existsb (String.eqb "--no-run") (argv w) in
  let llvm_override := parse_llvm (argv w) None in
  match detect_llvm_path w llvm_override with
  | None =>
      eprint Error_could_not_detect ;;;
      eprint Hint_set_environment ;;;
      eprint Hint_run_with_llvm ;;;
      ret 1%Z
  | Some llvm_root =>
      let llvm_root := os_resolve w llvm_root in
      print (Using_LLVM llvm_root) ;;;
      generate_llvm_libs_rsp llvm_root ;;;
      generate_rebuild_auto_bat llvm_root ;;;
      if no_run then
        print Skipping_build ;;;
        ret 0%Z
      else run_build
  end.

(** [sys.exit(main())]: the status the process ends with. *)
Definition exit_status (r : exn + Z) : Z :=
  match r with
  | inr code => code
  | inl _ => 1%Z
  end.

(** A variable that is unset, empty, or whose directory shows no marker. *)
Definition passed_over (w : world) (env : string) : Prop :=
  match supplied (environ w !! env) with
  | Some v => has_core_lib w (resolve w v) || has_include_llvm w (resolve w v) = false
  | None => True
  end.

(** The order [sorted] arranges strings in. *)
Definition string_le (a b : string) : Prop := String.leb a b = true.

(** No character of the text is of the class [P]. *)
Definition free_of (P : ascii -> bool) (s : string) : Prop :=
  Text.all_chars (fun c => negb (P c)) s = true.

(** ** Concrete worlds used to exercise the statements *)

Module Examples.

Definition scripts : path := Path "C:\proj\scripts".

(** A world with the given files and environment; nothing on the search
    path, paths resolve to themselves, the build script returns [code]. *)
Definition world_of (fs : list (string * node)) (env : list (string * string))
    (args : list string) (code : Z) : world :=
  mk_world (list_to_map (map (fun e => (Path e.1, e.2)) fs)) (list_to_map env)
           args scripts (fun p => p) None (fun _ m => (code, m)) [] [].

Definition with_files (fs : list (string * node)) : world :=
  world_of fs [] ["build_auto.py"] 0.

(** An installation under C:\L, named by LLVM_PATH. *)
Definition env_valid : world :=
  world_of [("C:\L", Dir); ("C:\L\lib", Dir); ("C:\L\lib\LLVMCore.lib", File "")]
           [("LLVM_PATH", "C:\L")] ["build_auto.py"; "--llvm"; ""] 0.

(** As [env_valid], and C:\llvm is an installation too. *)
Definition env_and_common_valid : world :=
  world_of [("C:\L", Dir); ("C:\L\lib", Dir); ("C:\L\lib\LLVMCore.lib", File "");
            ("C:\llvm", Dir); ("C:\llvm\lib", Dir); ("C:\llvm\lib\LLVMCore.lib", File "")]
           [("LLVM_PATH", "C:\L")] ["build_auto.py"] 0.

(** C:\LLVM-dev holds the headers only. *)
Definition headers_only_base : world :=
  with_files [("C:\LLVM-dev", Dir); ("C:\LLVM-dev\include", Dir);
              ("C:\LLVM-dev\include\llvm", Dir)].

(** C:\LLVM-dev exists without an installation below it; C:\llvm is one. *)
Definition later_base_valid : world :=
  with_files [("C:\LLVM-dev", Dir); ("C:\LLVM-dev\notes", Dir);
              ("C:\llvm", Dir); ("C:\llvm\lib", Dir); ("C:\llvm\lib\LLVMCore.lib", File "")].

(** C:\LLVM-dev holds a versioned installation. *)
Definition versioned_base : world :=
  with_files [("C:\LLVM-dev", Dir); ("C:\LLVM-dev\21", Dir); ("C:\LLVM-dev\21\lib", Dir);
              ("C:\LLVM-dev\21\lib\LLVMCore.lib", File "")].

(** LLVM_PATH names a directory that is no installation, LLVM_DIR one
    that is. *)
Definition second_variable_valid : world :=
  world_of [("C:\bad", Dir); ("C:\L", Dir); ("C:\L\lib", Dir);
            ("C:\L\lib\LLVMCore.lib", File "")]
           [("LLVM_PATH", "C:\bad"); ("LLVM_DIR", "C:\L")] ["build_auto.py"] 0.

(** The manifest names LLVMCore.lib, which exists, and gone.lib, which
    does not; a comment and a text file are among its lines. *)
Definition manifest_with_missing : world :=
  with_files [("C:\proj\scripts", Dir);
              ("C:\proj\scripts\llvm_libs.rsp",
               File ("# libraries" +:+ nl +:+ "LLVMCore.lib" +:+ nl +:+ "notes.txt" +:+ nl
                     +:+ "gone.lib" +:+ nl));
              ("C:\L", Dir); ("C:\L\lib", Dir); ("C:\L\lib\LLVMCore.lib", File "");
              ("C:\L\lib\LLVMSupport.lib", File "")].

(** The manifest holds a comment and an empty line only. *)
Definition manifest_without_names : world :=
  with_files [("C:\proj\scripts", Dir);
              ("C:\proj\scripts\llvm_libs.rsp", File ("# nothing" +:+ nl +:+ nl));
              ("C:\L", Dir); ("C:\L\lib", Dir); ("C:\L\lib\LLVMSupport.lib", File "");
              ("C:\L\lib\LLVMCore.lib", File ""); ("C:\L\lib\other.lib", File "")].

(** C:\L holds the headers and no lib directory. *)
Definition headers_only_root : world :=
  world_of [("C:\L", Dir); ("C:\L\include", Dir); ("C:\L\include\llvm", Dir)]
           [("LLVM_DIR", "C:\L")] ["build_auto.py"] 0.

(** A project with its template, and an installation under C:\L. *)
Definition project_files : list (string * node) :=
  [("C:\proj\scripts", Dir);
   ("C:\proj\scripts\rebuild_all.bat",
    File ("@echo off" +:+ nl +:+ "set LLVM_DIR=C:\old" +:+ nl +:+ "set LLVM_DIR=C:\older"
          +:+ nl +:+ "call build" +:+ nl));
   ("C:\L", Dir); ("C:\L\lib", Dir); ("C:\L\lib\LLVMCore.lib", File "")].

Definition project : world := with_files project_files.

(** The same project, run with an override and the build returning 7. *)
Definition project_run : world :=
  world_of project_files [] ["build_auto.py"; "--llvm"; "C:\L"] 7.

(** The same, with the flag that skips the build. *)
Definition project_no_run : world :=
  world_of project_files [] ["build_auto.py"; "--no-run"; "--llvm"; "C:\L"] 7.

(** A template without the line that sets the variable. *)
Definition template_without_line : world :=
  with_files [("C:\proj\scripts", Dir);
              ("C:\proj\scripts\rebuild_all.bat", File ("@echo off" +:+ nl +:+ "call build"));
              ("C:\proj\scripts\llvm_libs.rsp", File nl)].

(** The manifest names a library that is gone; the library directory
    holds another one. *)
Definition stale_manifest : world :=
  with_files [("C:\proj\scripts", Dir);
              ("C:\proj\scripts\llvm_libs.rsp", File ("gone.lib" +:+ nl));
              ("C:\L", Dir); ("C:\L\lib", Dir); ("C:\L\lib\LLVMCore.lib", File "")].

(** No manifest yet; the library directory holds two libraries. *)
Definition fresh_project : world :=
  with_files [("C:\proj\scripts", Dir);
              ("C:\L", Dir); ("C:\L\lib", Dir); ("C:\L\lib\LLVMSupport.lib", File "");
              ("C:\L\lib\LLVMCore.lib", File "")].

End Examples.

(** ** The values [generate_llvm_libs_rsp] computes in a world *)

(** The basenames read from the manifest, when there is one. *)
Definition existing_basenames (w : world) : list string :=
  match files w !! LLVM_LIBS_RSP w with
  | Some (File content) => read_basenames content
  | _ => []
  end.

(** [lib_basenames] once the fallback has been applied *)
Definition lib_basenames (w : world) (llvm_root : path) : list string :=
  choose_basenames w (llvm_root </> "lib") (existing_basenames w).

(** The basenames whose library exists: those the manifest will list. *)
Definition present (w : world) (llvm_root : path) : list string :=
  List.filter (fun n => exists_ w (llvm_root </> "lib" </> n)) (lib_basenames w llvm_root).

(** [missing] *)
Definition missing (w : world) (llvm_root : path) : list string :=
  List.filter (fun n => negb (exists_ w (llvm_root </> "lib" </> n)))
              (lib_basenames w llvm_root).

(** The text written to the manifest. *)
Definition manifest_text (w : world) (llvm_root : path) : string :=
  Text.join nl (map (rsp_line (llvm_root </> "lib")) (present w llvm_root)) +:+ nl.

(** The warning printed, if any. *)
Definition warning (w : world) (llvm_root : path) : list message :=
  match missing w llvm_root with
  | [] => []
  | m => [Warning_libs_not_found (length m) (llvm_root </> "lib") (firstn 5 m)]
  end.

(** The world [generate_llvm_libs_rsp] leaves when it returns. *)
Definition manifest_written (w : world) (llvm_root : path) : world :=
  mk_world (<[LLVM_LIBS_RSP w := File (manifest_text w llvm_root)]> (files w))
           (environ w) (argv w) (SCRIPT_DIR w) (os_resolve w) (where_clang w) (shell w)
           (stdout w ++ warning w llvm_root ++
              [Wrote_rsp (LLVM_LIBS_RSP w) (length (present w llvm_root))])
           (stderr w).

(** ** Well-formed names and roots *)

(** A character a Windows file name may hold, as far as the manifest is
    concerned: no separator, no colon, no line break. *)
Definition plain_char (c : ascii) : bool :=
  negb (is_sep c) && negb (is_colon c) && negb (Text.is_linebreak c).

(** A file name: one component, not the empty one and not the single dot. *)
Definition plain_name (n : string) : bool :=
  real_part n && Text.all_chars plain_char n.

(** The name of a library as the manifest reader accepts it. *)
Definition library_name (n : string) : bool :=
  plain_name n && Text.endswith ".lib" n.

Definition is_drive (d : string) : bool :=
  match d with
  | String c (String k "") => is_letter c && is_colon k
  | _ => false
  end.

(** An absolute path: a drive, a root and file names, as [resolve]
    returns it on Windows. *)
Definition absolute_path (p : path) : bool :=
  is_drive (drive p) && root p && forallb plain_name (parts p).

(** Does [p] lie below the directory [d]: same drive and root, and the
    components of [d] first? *)
Definition is_under (d p : path) : bool :=
  (drive p =? drive d) && Bool.eqb (root p) (root d) &&
  bool_decide (firstn (length (parts d)) (parts p) = parts d).

(** ** Further worlds *)

Module Scenes.

(** Installations under C:\O and C:\L; LLVM_PATH names the second. *)
Definition two_installations : world :=
  Examples.world_of
    [("C:\O", Dir); ("C:\O\lib", Dir); ("C:\O\lib\LLVMCore.lib", File "");
     ("C:\L", Dir); ("C:\L\lib", Dir); ("C:\L\lib\LLVMCore.lib", File "")]
    [("LLVM_PATH", "C:\L")] ["build_auto.py"; "--llvm"; "C:\O"] 0.

(** The search path answers with two compilers; the first belongs to an
    installation under C:\T. *)
Definition clang_on_path : world :=
  mk_world (list_to_map [(Path "C:\T", Dir); (Path "C:\T\lib", Dir);
                         (Path "C:\T\lib\LLVMCore.lib", File "")])
           ∅ ["build_auto.py"] Examples.scripts (fun p => p)
           (Some (0%Z, "C:\T\bin\clang.exe" +:+ nl +:+ "D:\x\bin\clang.exe" +:+ nl))
           (fun _ m => (0%Z, m)) [] [].

(** The query for the compiler ends with status 1. *)
Definition clang_not_found : world :=
  mk_world ∅ ∅ ["build_auto.py"] Examples.scripts (fun p => p)
           (Some (1%Z, "")) (fun _ m => (0%Z, m)) [] [].

(** An installation named by an override, and a project without its
    template. *)
Definition no_template : world :=
  Examples.world_of
    [("C:\proj\scripts", Dir);
     ("C:\L", Dir); ("C:\L\lib", Dir); ("C:\L\lib\LLVMCore.lib", File "")]
    [] ["build_auto.py"; "--llvm"; "C:\L"] 0.

(** The manifest names a library through a directory and a drive
    prefix; a file of that name lies in the current directory of that
    drive, none under the library directory. *)
Definition drive_prefixed_name : world :=
  Examples.with_files
    [("C:\proj\scripts", Dir);
     ("C:\proj\scripts\llvm_libs.rsp", File ("x\d:evil.lib" +:+ nl));
     ("C:\L", Dir); ("C:\L\lib", Dir); ("d:evil.lib", File "")].

End Scenes.

(** * Properties *)

(** ** The model on small inputs *)

Example splitlines_two_lines :
  Text.splitlines ("a" +:+ nl +:+ "b" +:+ nl) = ["a"; "b"] /\
  Text.splitlines nl = [""] /\ Text.splitlines "" = [].
Proof. repeat split; reflexivity. Qed.

Example lines_of_trailing_line_feed : lines_of ("a" +:+ nl) = ["a"; ""].
Proof. reflexivity. Qed.

Example strip_blanks : Text.strip Text.is_space "  a b  " = "a b".
Proof. reflexivity. Qed.

Example sorted_by_code_point : Text.sorted ["b"; "a"; "C"] = ["C"; "a"; "b"].
Proof. reflexivity. Qed.

Example Path_of_text :
  Path "C:\LLVM-dev" = mk_path "C:" true ["LLVM-dev"] /\
  path_str (Path "C:/LLVM-dev" </> "lib" </> "LLVMCore.lib") = "C:\LLVM-dev\lib\LLVMCore.lib" /\
  name (Path "C:/x/y/LLVMCore.lib") = "LLVMCore.lib" /\
  path_str (Path "") = "." /\ name (Path "C:\") = "".
Proof. repeat split; reflexivity. Qed.

Example suffix_of_path :
  suffix (Path "C:/x/bin/clang.exe") = ".exe" /\ suffix (Path "a/.profile") = "" /\
  suffix (Path "a/b.") = "" /\ suffix (Path "a/b.tar.gz") = ".gz" /\
  path_str (parent (parent (Path "C:/x/bin/clang.exe"))) = "C:\x".
Proof. repeat split; reflexivity. Qed.

Example joinpath_anchored_segment :
  path_str (Path "C:\a" </> "c:x.lib") = "C:\a\x.lib" /\
  path_str (Path "C:\a" </> "D:x.lib") = "D:x.lib" /\
  path_str (Path "C:\a" </> "\x.lib") = "C:\x.lib".
Proof. repeat split; reflexivity. Qed.

Example basename_of_some_lines :
  basename_of_line "  C:\old\lib\LLVMCore.lib  " = Some "LLVMCore.lib" /\
  basename_of_line "# LLVMCore.lib" = None /\
  basename_of_line "notes.txt" = None /\
  basename_of_line (rsp_line (Path "C:\L\lib") "LLVMCore.lib") = Some "LLVMCore.lib".
Proof. repeat split; reflexivity. Qed.

Example glob_match_ignores_case :
  glob_match "LLVMCore.lib" = true /\ glob_match "llvmcore.LIB" = true /\
  glob_match "LLVM.lib" = true /\ glob_match "clang.lib" = false.
Proof. repeat split; reflexivity. Qed.

Example parse_llvm_last_wins :
  parse_llvm ["build_auto.py"; "--llvm"; "a"; "--no-run"; "--llvm"; "b"] None = Some "b" /\
  parse_llvm ["build_auto.py"; "--llvm"] None = None.
Proof. repeat split; reflexivity. Qed.

(** A run is determined by its outcome and the world it leaves. *)
Lemma run_result {A} (r : (exn + A) * world) (a : A) :
  fst r = inr a -> r = (inr a, snd r).
Proof. destruct r as [o w]. simpl. intros ->. reflexivity. Qed.

(** ** Detection *)

Lemma supplied_Some o s : supplied o = Some s -> o = Some s /\ Text.truthy s = true.
Proof.
  destruct o as [t|]; simpl; [|discriminate].
  destruct (Text.truthy t) eqn:E; [|discriminate].
  intros [= ->]. auto.
Qed.

(** C1, as the code has it: a non-empty override whose resolved
    directory shows neither marker makes [detect_llvm_path] return
    nothing, whatever the environment, the well-known directories and
    the search path hold. *)
Theorem override_failure_is_final (w : world) (o : string) :
  Text.truthy o = true ->
  has_core_lib w (resolve w o) = false ->
  has_include_llvm w (resolve w o) = false ->
  detect_llvm_path w (Some o) = None.
Proof.
  intros Ht Hc Hi. unfold detect_llvm_path. simpl. rewrite Ht.
  unfold from_override. rewrite Hc, Hi. reflexivity.
Qed.

Lemma override_failure_is_final_witness :
  Text.truthy "C:\none" = true /\
  detect_llvm_path Examples.env_and_common_valid None = Some (Path "C:\L") /\
  detect_llvm_path Examples.env_and_common_valid (Some "C:\none") = None.
Proof.
  split; [reflexivity|]. split; [vm_compute; reflexivity|].
  apply (override_failure_is_final Examples.env_and_common_valid "C:\none");
    vm_compute; reflexivity.
Defined.

(** C1 as stated fails for the empty override: the script takes an empty
    string for no override at all and goes on to the environment. *)
Lemma empty_override_falls_through :
  ~ (forall (w : world) (o : string),
       has_core_lib w (resolve w o) = false ->
       has_include_llvm w (resolve w o) = false ->
       detect_llvm_path w (Some o) = None).
Proof.
  intros H. specialize (H Examples.env_valid "").
  assert (E : detect_llvm_path Examples.env_valid (Some "") = Some (Path "C:\L"))
    by (vm_compute; reflexivity).
  rewrite H in E; [discriminate| |]; vm_compute; reflexivity.
Qed.

Lemma from_common_locations_skip (w : world) (pre rest : list path) :
  Forall (fun c => exists_ w c = false) pre ->
  from_common_locations w (pre ++ rest) = from_common_locations w rest.
Proof.
  induction 1 as [|c pre Hc _ IH]; simpl; [reflexivity|].
  rewrite Hc. exact IH.
Qed.

(** C2, as the code has it: the first well-known directory that exists
    decides.  If it is a directory with lib/LLVMCore.lib it is the
    result; otherwise the first entry of it that is a directory with
    lib/LLVMCore.lib is; otherwise there is no result, whatever the later
    well-known directories hold.  The include/llvm marker plays no part. *)
Theorem first_existing_base_decides (w : world) (pre post : list path) (base : path) :
  candidates = pre ++ base :: post ->
  Forall (fun c => exists_ w c = false) pre ->
  exists_ w base = true ->
  from_common_locations w candidates =
    if is_dir w base then
      if exists_ w (base </> "lib" </> "LLVMCore.lib") then Some base
      else List.find (fun sub => is_dir w sub &&
                                 exists_ w (sub </> "lib" </> "LLVMCore.lib"))
                     (iterdir w base)
    else None.
Proof.
  intros -> Hpre Hbase.
  rewrite from_common_locations_skip by exact Hpre.
  simpl. rewrite Hbase. reflexivity.
Qed.

Lemma first_existing_base_decides_witness :
  from_common_locations Examples.later_base_valid candidates = None /\
  from_common_locations Examples.versioned_base candidates = Some (Path "C:\LLVM-dev\21").
Proof.
  split.
  - rewrite (first_existing_base_decides Examples.later_base_valid []
               [Path "C:\Program Files\LLVM"; Path "C:\llvm"] (Path "C:\LLVM-dev"));
      [vm_compute; reflexivity | reflexivity | constructor | vm_compute; reflexivity].
  - rewrite (first_existing_base_decides Examples.versioned_base []
               [Path "C:\Program Files\LLVM"; Path "C:\llvm"] (Path "C:\LLVM-dev"));
      [vm_compute; reflexivity | reflexivity | constructor | vm_compute; reflexivity].
Defined.

(** C2 as stated fails: a first existing base directory that passes the
    marker check through include/llvm alone is not accepted. *)
Lemma headers_only_base_rejected :
  ~ (forall (w : world) (pre post : list path) (base : path),
       candidates = pre ++ base :: post ->
       Forall (fun c => exists_ w c = false) pre ->
       exists_ w base = true ->
       is_dir w base = true ->
       has_core_lib w base || has_include_llvm w base = true ->
       from_common_locations w candidates = Some base).
Proof.
  intros H.
  specialize (H Examples.headers_only_base []
                [Path "C:\Program Files\LLVM"; Path "C:\llvm"] (Path "C:\LLVM-dev")).
  assert (E : from_common_locations Examples.headers_only_base candidates = None)
    by (vm_compute; reflexivity).
  rewrite H in E; [discriminate| reflexivity | constructor | | |];
    vm_compute; reflexivity.
Qed.

Lemma from_environment_skip (w : world) (pre rest : list string) :
  Forall (passed_over w) pre ->
  from_environment w (pre ++ rest) = from_environment w rest.
Proof.
  induction 1 as [|e pre He _ IH]; simpl; [reflexivity|].
  unfold passed_over in He.
  destruct (supplied (environ w !! e)); [rewrite He|]; exact IH.
Qed.

(** C3, as the code has it: of the three variables, in their order, the
    first that is set to a non-empty value whose directory shows a marker
    gives the result; a variable set to a directory without marker is
    passed over and the later ones are still consulted; when all are
    passed over the environment gives no result. *)
Theorem first_valid_variable_wins (w : world) :
  (forall (pre post : list string) (env v : string),
      ENV_NAMES = pre ++ env :: post ->
      Forall (passed_over w) pre ->
      environ w !! env = Some v ->
      Text.truthy v = true ->
      has_core_lib w (resolve w v) || has_include_llvm w (resolve w v) = true ->
      from_environment w ENV_NAMES = Some (resolve w v)) /\
  (Forall (passed_over w) ENV_NAMES -> from_environment w ENV_NAMES = None).
Proof.
  split.
  - intros pre post env v -> Hpre Hv Ht Hm.
    rewrite from_environment_skip by exact Hpre.
    simpl. rewrite Hv. simpl. rewrite Ht, Hm. reflexivity.
  - intros H. rewrite <- (app_nil_r ENV_NAMES).
    rewrite from_environment_skip by exact H. reflexivity.
Qed.

Lemma first_valid_variable_wins_witness :
  from_environment Examples.second_variable_valid ENV_NAMES = Some (Path "C:\L") /\
  from_environment Examples.later_base_valid ENV_NAMES = None.
Proof.
  split.
  - apply (proj1 (first_valid_variable_wins Examples.second_variable_valid)
             ["LLVM_PATH"] ["LLVM_HOME"] "LLVM_DIR" "C:\L").
    + reflexivity.
    + constructor; [vm_compute; reflexivity | constructor].
    + vm_compute; reflexivity.
    + reflexivity.
    + vm_compute; reflexivity.
  - apply (proj2 (first_valid_variable_wins Examples.later_base_valid)).
    repeat constructor.
Defined.

(** C3 as stated fails: the first variable that is set does not decide
    when its directory shows no marker. *)
Lemma first_set_variable_does_not_decide :
  ~ (forall (w : world) (pre post : list string) (env v : string),
       ENV_NAMES = pre ++ env :: post ->
       Forall (fun e => supplied (environ w !! e) = None) pre ->
       supplied (environ w !! env) = Some v ->
       from_environment w ENV_NAMES =
         if has_core_lib w (resolve w v) || has_include_llvm w (resolve w v)
         then Some (resolve w v) else None).
Proof.
  intros H.
  specialize (H Examples.second_variable_valid [] ["LLVM_DIR"; "LLVM_HOME"]
                "LLVM_PATH" "C:\bad").
  assert (E : from_environment Examples.second_variable_valid ENV_NAMES
              = Some (Path "C:\L")) by (vm_compute; reflexivity).
  rewrite H in E; [vm_compute in E; discriminate | reflexivity | constructor |].
  vm_compute; reflexivity.
Qed.

(** ** Manifest generation *)

Lemma exists_lookup (w : world) (p : path) :
  exists_ w p = match files w !! p with Some _ => true | None => false end.
Proof. reflexivity. Qed.

Lemma generate_llvm_libs_rsp_returns (w : world) (llvm_root : path) :
  exists_ w (llvm_root </> "lib") = true ->
  is_dir w (LLVM_LIBS_RSP w) = false ->
  generate_llvm_libs_rsp llvm_root w = (inr tt, manifest_written w llvm_root).
Proof.
  intros Hlib Hrsp. unfold is_dir in Hrsp.
  unfold generate_llvm_libs_rsp, bind, get. rewrite Hlib. cbn [negb].
  unfold manifest_written, manifest_text, warning, present, missing, lib_basenames,
    existing_basenames.
  rewrite (exists_lookup w (LLVM_LIBS_RSP w)).
  destruct (files w !! LLVM_LIBS_RSP w) as [[content|]|] eqn:E; [| discriminate |];
    unfold read_text; rewrite ?E; cbn beta iota; unfold ret at 1; cbn beta iota;
    set (names := choose_basenames w _ _);
    rewrite length_map;
    (destruct (List.filter (fun n => negb _) names);
     unfold ret, print, write_text, add_stdout, set_files; cbn [files];
     cbn beta iota; cbn [files]; rewrite E; simpl;
     rewrite <- ?app_assoc; reflexivity).
Qed.

Lemma generate_llvm_libs_rsp_raises (w : world) (llvm_root : path) :
  exists_ w (llvm_root </> "lib") = false ->
  generate_llvm_libs_rsp llvm_root w =
    (inl (FileNotFoundError ("LLVM lib directory not found: "
                             +:+ path_str (llvm_root </> "lib"))), w).
Proof.
  intros H. unfold generate_llvm_libs_rsp, bind, get. rewrite H. reflexivity.
Qed.

(** What manifest generation writes, for every list of basenames: when
    the library directory exists and the manifest path is no directory,
    the run returns normally; the manifest has one line per basename for
    which the library directory joined with the basename exists, and no
    other line; a basename for which it does not exist is left out and
    counted in the warning the run prints. *)
Theorem manifest_lists_existing_libraries_only (w : world) (llvm_root : path) :
  exists_ w (llvm_root </> "lib") = true ->
  is_dir w (LLVM_LIBS_RSP w) = false ->
  exists w',
    generate_llvm_libs_rsp llvm_root w = (inr tt, w') /\
    files w' !! LLVM_LIBS_RSP w =
      Some (File (Text.join nl (map (rsp_line (llvm_root </> "lib")) (present w llvm_root))
                  +:+ nl)) /\
    (forall n, In n (present w llvm_root) <->
               In n (lib_basenames w llvm_root) /\
               exists_ w (llvm_root </> "lib" </> n) = true) /\
    (forall n, In n (lib_basenames w llvm_root) ->
               exists_ w (llvm_root </> "lib" </> n) = false ->
               ~ In n (present w llvm_root) /\
               In n (missing w llvm_root) /\
               In (Warning_libs_not_found (length (missing w llvm_root))
                     (llvm_root </> "lib") (firstn 5 (missing w llvm_root)))
                  (stdout w')).
Proof.
  intros Hlib Hrsp. exists (manifest_written w llvm_root).
  split; [apply generate_llvm_libs_rsp_returns; assumption|].
  split; [simpl; rewrite lookup_insert_eq; reflexivity|].
  split.
  - intros n. unfold present. apply filter_In.
  - intros n Hn Hex. assert (Hm : In n (missing w llvm_root)).
    { unfold missing. apply filter_In. rewrite Hex. auto. }
    split; [|split; [exact Hm|]].
    + unfold present. rewrite filter_In. rewrite Hex. intros [_ [=]].
    + simpl. unfold warning. apply in_or_app. right. apply in_or_app. left.
      destruct (missing w llvm_root); [destruct Hm | left; reflexivity].
Qed.

Lemma manifest_lists_existing_libraries_only_witness :
  exists_ Examples.manifest_with_missing (Path "C:\L" </> "lib") = true /\
  is_dir Examples.manifest_with_missing (LLVM_LIBS_RSP Examples.manifest_with_missing) = false /\
  lib_basenames Examples.manifest_with_missing (Path "C:\L") = ["LLVMCore.lib"; "gone.lib"] /\
  exists w',
    generate_llvm_libs_rsp (Path "C:\L") Examples.manifest_with_missing = (inr tt, w') /\
    files w' !! LLVM_LIBS_RSP Examples.manifest_with_missing =
      Some (File (rsp_line (Path "C:\L\lib") "LLVMCore.lib" +:+ nl)).
Proof.
  split; [vm_compute; reflexivity|]. split; [vm_compute; reflexivity|].
  split; [vm_compute; reflexivity|].
  destruct (manifest_lists_existing_libraries_only Examples.manifest_with_missing
              (Path "C:\L")) as (w' & Hrun & Hfile & _);
    [vm_compute; reflexivity | vm_compute; reflexivity |].
  exists w'. split; [exact Hrun|]. rewrite Hfile. vm_compute. reflexivity.
Defined.

(** C9: a root accepted for its include/llvm directory, through the
    override or through the environment, is returned by
    [detect_llvm_path] although it has no lib directory, and
    [generate_llvm_libs_rsp] then raises [FileNotFoundError] and changes
    nothing. *)
Theorem accepted_root_may_lack_lib (w : world) :
  (forall o : string,
      Text.truthy o = true ->
      has_include_llvm w (resolve w o) = true ->
      exists_ w (resolve w o </> "lib") = false ->
      detect_llvm_path w (Some o) = Some (resolve w o) /\
      generate_llvm_libs_rsp (resolve w o) w =
        (inl (FileNotFoundError ("LLVM lib directory not found: "
                                 +:+ path_str (resolve w o </> "lib"))), w)) /\
  (forall (o : option string) (llvm_root : path),
      supplied o = None ->
      from_environment w ENV_NAMES = Some llvm_root ->
      exists_ w (llvm_root </> "lib") = false ->
      detect_llvm_path w o = Some llvm_root /\
      generate_llvm_libs_rsp llvm_root w =
        (inl (FileNotFoundError ("LLVM lib directory not found: "
                                 +:+ path_str (llvm_root </> "lib"))), w)).
Proof.
  split.
  - intros o Ht Hi Hlib. split; [|apply generate_llvm_libs_rsp_raises; exact Hlib].
    unfold detect_llvm_path. simpl. rewrite Ht. unfold from_override.
    rewrite Hi. destruct (has_core_lib w (resolve w o)); reflexivity.
  - intros o llvm_root Ho He Hlib. split; [|apply generate_llvm_libs_rsp_raises; exact Hlib].
    unfold detect_llvm_path. rewrite Ho, He. reflexivity.
Qed.

Lemma accepted_root_may_lack_lib_witness :
  (detect_llvm_path Examples.headers_only_root (Some "C:\L") = Some (Path "C:\L") /\
   fst (generate_llvm_libs_rsp (Path "C:\L") Examples.headers_only_root) =
     inl (FileNotFoundError "LLVM lib directory not found: C:\L\lib")) /\
  (detect_llvm_path Examples.headers_only_root None = Some (Path "C:\L")).
Proof.
  split.
  - destruct (proj1 (accepted_root_may_lack_lib Examples.headers_only_root) "C:\L")
      as [Hd Hg]; [reflexivity | vm_compute; reflexivity | vm_compute; reflexivity |].
    split; [exact Hd|].
    change (Path "C:\L") with (resolve Examples.headers_only_root "C:\L").
    rewrite Hg. vm_compute. reflexivity.
  - apply (proj2 (accepted_root_may_lack_lib Examples.headers_only_root) None (Path "C:\L"));
      vm_compute; reflexivity.
Defined.

(** *** The order of the directory scan *)

Lemma insert_sorted_In (x y : string) (l : list string) :
  In y (Text.insert_sorted x l) <-> y = x \/ In y l.
Proof.
  induction l as [|z l IH]; simpl.
  - intuition.
  - destruct (String.leb x z); simpl; [intuition|]. rewrite IH. intuition.
Qed.

Lemma sorted_In (y : string) (l : list string) : In y (Text.sorted l) <-> In y l.
Proof.
  induction l as [|x l IH]; simpl; [reflexivity|].
  rewrite insert_sorted_In, IH. intuition.
Qed.

Lemma insert_sorted_HdRel (a x : string) (l : list string) :
  string_le a x -> HdRel string_le a l -> HdRel string_le a (Text.insert_sorted x l).
Proof.
  intros Hax Hal. destruct l as [|z l]; simpl; [constructor; exact Hax|].
  destruct (String.leb x z); constructor; [exact Hax|].
  inversion Hal; assumption.
Qed.

Lemma insert_sorted_Sorted (x : string) (l : list string) :
  Sorted string_le l -> Sorted string_le (Text.insert_sorted x l).
Proof.
  induction 1 as [|z l Hl IH Hz]; simpl; [repeat constructor|].
  destruct (String.leb x z) eqn:E.
  - constructor; [constructor; assumption | constructor; exact E].
  - constructor; [exact IH|].
    apply insert_sorted_HdRel; [|exact Hz].
    destruct (String.leb_total x z) as [H|H]; [congruence | exact H].
Qed.

Lemma sorted_Sorted (l : list string) : Sorted string_le (Text.sorted l).
Proof.
  induction l as [|x l IH]; simpl; [constructor|].
  apply insert_sorted_Sorted, IH.
Qed.

(** *** Lines of the manifest that contribute no basename *)

Lemma basename_of_line_excluded (line : string) :
  let s := Text.strip Text.is_quote (Text.strip Text.is_space line) in
  s = "" \/ Text.startswith "#" s = true \/ Text.endswith ".lib" (name (Path s)) = false ->
  basename_of_line line = None.
Proof.
  intros s H. unfold basename_of_line. fold s.
  destruct H as [H | [H | H]].
  - rewrite H. reflexivity.
  - rewrite H. rewrite orb_true_r. reflexivity.
  - rewrite H. destruct (negb _ || _); reflexivity.
Qed.

Lemma omap_all_None {A B} (f : A -> option B) (l : list A) :
  Forall (fun a => f a = None) l -> omap f l = [].
Proof.
  induction 1 as [|a l Ha _ IH]; simpl; [reflexivity|]. rewrite Ha. exact IH.
Qed.

Lemma In_firstn_In {A} (x : A) (k : nat) (l : list A) :
  In x (firstn k l) -> In x l.
Proof.
  revert l. induction k as [|k IH]; intros [|a l]; simpl; intros H;
    try contradiction.
  destruct H as [H|H]; [left; exact H | right; exact (IH l H)].
Qed.

(** C10: a line of the existing manifest that is empty once stripped,
    that starts with the comment sign, or whose basename does not end in
    .lib, contributes no basename; the run prints nothing but the warning
    about the basenames it kept and the closing message, so such a line
    is never reported; and when every line is such a line, the basenames
    are those of the entries of the library directory matching
    LLVM*.lib, in increasing order. *)
Theorem unlisted_lines_are_silent (w : world) (llvm_root : path) (content : string) :
  files w !! LLVM_LIBS_RSP w = Some (File content) ->
  exists_ w (llvm_root </> "lib") = true ->
  (forall line,
      let s := Text.strip Text.is_quote (Text.strip Text.is_space line) in
      s = "" \/ Text.startswith "#" s = true \/
      Text.endswith ".lib" (name (Path s)) = false ->
      basename_of_line line = None) /\
  (forall pre line post,
      Text.splitlines content = pre ++ line :: post ->
      basename_of_line line = None ->
      existing_basenames w = omap basename_of_line (pre ++ post)) /\
  (exists w',
      generate_llvm_libs_rsp llvm_root w = (inr tt, w') /\
      stdout w' = stdout w ++ warning w llvm_root ++
                    [Wrote_rsp (LLVM_LIBS_RSP w) (length (present w llvm_root))]) /\
  (forall count d preview n,
      In (Warning_libs_not_found count d preview) (warning w llvm_root) ->
      In n preview ->
      In n (lib_basenames w llvm_root) /\
      exists_ w (llvm_root </> "lib" </> n) = false) /\
  (Forall (fun line => basename_of_line line = None) (Text.splitlines content) ->
   lib_basenames w llvm_root =
     Text.sorted (map name (glob_llvm_libs w (llvm_root </> "lib"))) /\
   Sorted string_le (lib_basenames w llvm_root) /\
   forall n, In n (lib_basenames w llvm_root) <->
             exists p, In p (iterdir w (llvm_root </> "lib")) /\
                       name p = n /\ glob_match n = true).
Proof.
  intros Hfile Hlib.
  assert (Hex : existing_basenames w = omap basename_of_line (Text.splitlines content)).
  { unfold existing_basenames. rewrite Hfile. reflexivity. }
  split; [exact basename_of_line_excluded|].
  split.
  { intros pre line post Hsplit Hnone. rewrite Hex, Hsplit.
    rewrite !omap_app. simpl. rewrite Hnone. reflexivity. }
  split.
  { exists (manifest_written w llvm_root). split; [|reflexivity].
    apply generate_llvm_libs_rsp_returns; [exact Hlib|].
    unfold is_dir. rewrite Hfile. reflexivity. }
  split.
  { intros count d preview n Hw Hn. unfold warning in Hw.
    destruct (missing w llvm_root) as [|m ms] eqn:Em; [destruct Hw|].
    destruct Hw as [[= <- <- <-]|[]].
    assert (Hin : In n (missing w llvm_root)).
    { rewrite Em. exact (In_firstn_In n 5 (m :: ms) Hn). }
    unfold missing in Hin. apply filter_In in Hin. destruct Hin as [Hin Hmiss].
    split; [exact Hin|]. apply negb_true_iff in Hmiss. exact Hmiss. }
  intros Hall.
  assert (Hscan : lib_basenames w llvm_root =
                  Text.sorted (map name (glob_llvm_libs w (llvm_root </> "lib")))).
  { unfold lib_basenames. rewrite Hex, (omap_all_None _ _ Hall). reflexivity. }
  split; [exact Hscan|]. rewrite Hscan.
  split; [apply sorted_Sorted|].
  intros n. rewrite sorted_In, in_map_iff. unfold glob_llvm_libs. split.
  - intros (p & Hn & Hp). apply filter_In in Hp. destruct Hp as [Hp Hm].
    exists p. subst n. auto.
  - intros (p & Hp & Hn & Hm). exists p. split; [exact Hn|].
    apply filter_In. subst n. auto.
Qed.

Lemma unlisted_lines_are_silent_witness :
  lib_basenames Examples.manifest_without_names (Path "C:\L") =
    ["LLVMCore.lib"; "LLVMSupport.lib"] /\
  exists w',
    generate_llvm_libs_rsp (Path "C:\L") Examples.manifest_without_names = (inr tt, w') /\
    stdout w' = [Wrote_rsp (Path "C:\proj\scripts\llvm_libs.rsp") 2].
Proof.
  destruct (unlisted_lines_are_silent Examples.manifest_without_names (Path "C:\L")
              ("# nothing" +:+ nl +:+ nl))
    as (_ & _ & (w' & Hrun & Hout) & _ & Hscan);
    [vm_compute; reflexivity | vm_compute; reflexivity |].
  split.
  - rewrite (proj1 (Hscan ltac:(repeat constructor))). vm_compute. reflexivity.
  - exists w'. split; [exact Hrun|]. rewrite Hout. vm_compute. reflexivity.
Defined.

(** ** Facts about texts *)

Lemma append_assoc (a b c : string) : (a +:+ b) +:+ c = a +:+ (b +:+ c).
Proof. induction a as [|x a IH]; simpl; [reflexivity|]. rewrite IH. reflexivity. Qed.

Lemma append_empty_r (a : string) : a +:+ "" = a.
Proof. induction a as [|x a IH]; simpl; [reflexivity|]. rewrite IH. reflexivity. Qed.

Lemma all_chars_app (P : ascii -> bool) (a b : string) :
  Text.all_chars P (a +:+ b) = Text.all_chars P a && Text.all_chars P b.
Proof.
  induction a as [|x a IH]; simpl; [reflexivity|].
  rewrite IH, andb_assoc. reflexivity.
Qed.

Lemma join_cons (sep x : string) (l : list string) :
  l <> [] -> Text.join sep (x :: l) = x +:+ sep +:+ Text.join sep l.
Proof. destruct l; [congruence | reflexivity]. Qed.

Lemma join_cons_char (sep : string) (c : ascii) (x : string) (l : list string) :
  Text.join sep (String c x :: l) = String c (Text.join sep (x :: l)).
Proof. destruct l; reflexivity. Qed.

Lemma all_chars_join (P : ascii -> bool) (sep : string) (l : list string) :
  Text.all_chars P sep = true ->
  Forall (fun x => Text.all_chars P x = true) l ->
  Text.all_chars P (Text.join sep l) = true.
Proof.
  intros Hsep. induction 1 as [|x l Hx Hl IH]; [reflexivity|].
  destruct l as [|y l]; [exact Hx|].
  rewrite join_cons by discriminate.
  rewrite !all_chars_app, Hx, Hsep, IH. reflexivity.
Qed.

Section Splitting.

Variable P : ascii -> bool.

Lemma split_on_not_nil (s : string) : Text.split_on P s <> [].
Proof.
  destruct s as [|c s]; simpl; [discriminate|].
  destruct (P c); [discriminate|]. destruct (Text.split_on P s); discriminate.
Qed.

Lemma split_on_free (s : string) : Forall (free_of P) (Text.split_on P s).
Proof.
  induction s as [|c s IH]; simpl; [repeat constructor|].
  destruct (P c) eqn:E; [constructor; [reflexivity | exact IH]|].
  destruct (Text.split_on P s) as [|l ls]; [repeat constructor; unfold free_of; simpl; rewrite E; reflexivity|].
  inversion IH as [|? ? Hl Hls]; subst.
  constructor; [|exact Hls]. unfold free_of in *. simpl. rewrite E, Hl. reflexivity.
Qed.

Lemma split_on_app_sep (x : string) (c : ascii) (s : string) :
  free_of P x -> P c = true ->
  Text.split_on P (x +:+ String c s) = x :: Text.split_on P s.
Proof.
  intros Hx Hc. induction x as [|a x IH]; simpl; [rewrite Hc; reflexivity|].
  unfold free_of in Hx. simpl in Hx. apply andb_prop in Hx. destruct Hx as [Ha Hx].
  apply negb_true_iff in Ha. rewrite Ha, (IH Hx). reflexivity.
Qed.

Lemma split_on_free_id (x : string) : free_of P x -> Text.split_on P x = [x].
Proof.
  intros Hx. induction x as [|a x IH]; simpl; [reflexivity|].
  unfold free_of in Hx. simpl in Hx. apply andb_prop in Hx. destruct Hx as [Ha Hx].
  apply negb_true_iff in Ha. rewrite Ha, (IH Hx). reflexivity.
Qed.

Lemma split_on_join (c : ascii) (l : list string) :
  P c = true -> l <> [] -> Forall (free_of P) l ->
  Text.split_on P (Text.join (String c "") l) = l.
Proof.
  intros Hc Hl Hall. induction Hall as [|x l Hx Hall IH]; [congruence|].
  destruct l as [|y l]; [apply split_on_free_id; exact Hx|].
  rewrite join_cons by discriminate.
  change (String c "" +:+ Text.join (String c "") (y :: l))
    with (String c (Text.join (String c "") (y :: l))).
  rewrite split_on_app_sep by assumption.
  rewrite IH by discriminate. reflexivity.
Qed.

End Splitting.

Lemma is_lf_eq (c : ascii) : Text.is_lf c = true -> c = Text.lf.
Proof.
  unfold Text.is_lf, Text.code. intros H. apply N.eqb_eq in H.
  rewrite <- (ascii_N_embedding c), H. reflexivity.
Qed.

(** Joining the lines of a text with line feeds gives the text back. *)
Lemma join_lines_of (s : string) : Text.join nl (lines_of s) = s.
Proof.
  unfold lines_of. induction s as [|c s IH]; simpl; [reflexivity|].
  destruct (Text.is_lf c) eqn:E.
  - rewrite join_cons by apply split_on_not_nil.
    rewrite IH. apply is_lf_eq in E. subst c. reflexivity.
  - pose proof (split_on_not_nil Text.is_lf s) as Hne.
    destruct (Text.split_on Text.is_lf s) as [|l ls]; [congruence|].
    rewrite join_cons_char, IH. reflexivity.
Qed.

Lemma lines_of_join (l : list string) :
  l <> [] -> Forall (free_of Text.is_lf) l -> lines_of (Text.join nl l) = l.
Proof. intros. apply (split_on_join Text.is_lf Text.lf); auto. Qed.

(** ** Script generation *)

Lemma existsb_false {A} (f : A -> bool) (l : list A) :
  Forall (fun a => f a = false) l -> existsb f l = false.
Proof.
  induction 1 as [|a l Ha _ IH]; simpl; [reflexivity|]. rewrite Ha. exact IH.
Qed.

(** The list of lines up to and after the first line the pattern matches. *)
Lemma replace_first_split (new_line : string) (ls : list string) :
  existsb sets_LLVM_DIR ls = true ->
  exists pre old post,
    ls = pre ++ old :: post /\
    Forall (fun l => sets_LLVM_DIR l = false) pre /\
    sets_LLVM_DIR old = true /\
    replace_first new_line ls = pre ++ new_line :: post.
Proof.
  induction ls as [|l ls IH]; simpl; [discriminate|].
  destruct (sets_LLVM_DIR l) eqn:E.
  - intros _. exists [], l, ls. repeat split; [constructor | exact E].
  - simpl. intros H. destruct (IH H) as (pre & old & post & -> & Hpre & Hold & Hrep).
    exists (l :: pre), old, post. repeat split; [constructor; assumption | exact Hold |].
    simpl. rewrite Hrep. reflexivity.
Qed.

Lemma generate_rebuild_auto_bat_returns (w : world) (llvm_root : path) (content : string) :
  files w !! REBUILD_ALL_BAT w = Some (File content) ->
  pattern_search content = true ->
  is_dir w (REBUILD_AUTO_BAT w) = false ->
  generate_rebuild_auto_bat llvm_root w =
    (inr tt,
     add_stdout (Wrote_bat (REBUILD_AUTO_BAT w) llvm_root)
       (set_files (<[REBUILD_AUTO_BAT w :=
                       File (pattern_sub_once ("set LLVM_DIR=" +:+ path_str llvm_root)
                                              content)]> (files w)) w)).
Proof.
  intros Hfile Hfound Hscript. unfold is_dir in Hscript.
  unfold generate_rebuild_auto_bat, bind, get.
  rewrite exists_lookup, Hfile. cbn [negb].
  unfold read_text. rewrite Hfile, Hfound. cbn [negb]. unfold write_text.
  destruct (files w !! REBUILD_AUTO_BAT w) as [[old|]|]; [| discriminate |]; reflexivity.
Qed.

Lemma generate_rebuild_auto_bat_blocked (w : world) (llvm_root : path) (content : string) :
  files w !! REBUILD_ALL_BAT w = Some (File content) ->
  pattern_search content = true ->
  is_dir w (REBUILD_AUTO_BAT w) = true ->
  generate_rebuild_auto_bat llvm_root w = (inl (IsADirectoryError (REBUILD_AUTO_BAT w)), w).
Proof.
  intros Hfile Hfound Hscript. unfold is_dir in Hscript.
  unfold generate_rebuild_auto_bat, bind, get.
  rewrite exists_lookup, Hfile. cbn [negb].
  unfold read_text. rewrite Hfile, Hfound. cbn [negb]. unfold write_text.
  destruct (files w !! REBUILD_AUTO_BAT w) as [[old|]|]; try discriminate Hscript.
  reflexivity.
Qed.

(** C6: for a template with a line that sets the variable, and with
    no directory in the place of the script to generate, script
    generation returns normally and writes the lines of the template,
    joined by line feeds, with the first such line replaced by the
    setting of the variable to the text of the root, character for
    character, and every other line as it was.  The root's text holding
    no line feed (no Windows path holds one), the lines of the written
    script are these, as many as the template has. *)
Theorem one_line_is_rewritten (w : world) (llvm_root : path) (content : string) :
  files w !! REBUILD_ALL_BAT w = Some (File content) ->
  existsb sets_LLVM_DIR (lines_of content) = true ->
  is_dir w (REBUILD_AUTO_BAT w) = false ->
  exists pre old post w' out,
    lines_of content = pre ++ old :: post /\
    Forall (fun l => sets_LLVM_DIR l = false) pre /\
    sets_LLVM_DIR old = true /\
    generate_rebuild_auto_bat llvm_root w = (inr tt, w') /\
    files w' !! REBUILD_AUTO_BAT w = Some (File out) /\
    out = Text.join nl (pre ++ ("set LLVM_DIR=" +:+ path_str llvm_root) :: post) /\
    (free_of Text.is_lf (path_str llvm_root) ->
     lines_of out = pre ++ ("set LLVM_DIR=" +:+ path_str llvm_root) :: post /\
     length (lines_of out) = length (lines_of content)).
Proof.
  intros Hfile Hfound Hscript.
  destruct (replace_first_split ("set LLVM_DIR=" +:+ path_str llvm_root) _ Hfound)
    as (pre & old & post & Hsplit & Hpre & Hold & Hrep).
  exists pre, old, post.
  eexists. exists (pattern_sub_once ("set LLVM_DIR=" +:+ path_str llvm_root) content).
  split; [exact Hsplit|]. split; [exact Hpre|]. split; [exact Hold|].
  split; [apply (generate_rebuild_auto_bat_returns w llvm_root content Hfile Hfound Hscript)|].
  split; [simpl; apply lookup_insert_eq|].
  split; [unfold pattern_sub_once; rewrite Hrep; reflexivity|].
  intros Hroot.
  assert (Hlines : lines_of (pattern_sub_once ("set LLVM_DIR=" +:+ path_str llvm_root) content)
                   = pre ++ ("set LLVM_DIR=" +:+ path_str llvm_root) :: post).
  { unfold pattern_sub_once. rewrite Hrep. apply lines_of_join.
    - destruct pre; discriminate.
    - pose proof (split_on_free Text.is_lf content) as Hfree.
      fold (lines_of content) in Hfree. rewrite Hsplit in Hfree.
      apply Forall_app in Hfree. destruct Hfree as [Hf1 Hf2].
      apply Forall_app. split; [exact Hf1|].
      inversion Hf2; subst. constructor; [|assumption].
      unfold free_of. rewrite all_chars_app. rewrite Hroot. reflexivity. }
  split; [exact Hlines|].
  rewrite Hlines, Hsplit, !length_app. reflexivity.
Qed.

Lemma one_line_is_rewritten_witness :
  is_dir Examples.project (REBUILD_AUTO_BAT Examples.project) = false /\
  free_of Text.is_lf (path_str (Path "C:\L")) /\
  exists w' out,
    generate_rebuild_auto_bat (Path "C:\L") Examples.project = (inr tt, w') /\
    files w' !! REBUILD_AUTO_BAT Examples.project = Some (File out) /\
    out = "@echo off" +:+ nl +:+ "set LLVM_DIR=C:\L" +:+ nl +:+ "set LLVM_DIR=C:\older"
          +:+ nl +:+ "call build" +:+ nl /\
    length (lines_of out) = 5%nat.
Proof.
  split; [vm_compute; reflexivity|]. split; [vm_compute; reflexivity|].
  destruct (one_line_is_rewritten Examples.project (Path "C:\L")
              ("@echo off" +:+ nl +:+ "set LLVM_DIR=C:\old" +:+ nl +:+ "set LLVM_DIR=C:\older"
               +:+ nl +:+ "call build" +:+ nl))
    as (pre & old & post & w' & out & _ & _ & _ & Hrun & Hfile & Hout & Hcount);
    [vm_compute; reflexivity | vm_compute; reflexivity | vm_compute; reflexivity |].
  destruct Hcount as [_ Hlen]; [vm_compute; reflexivity|].
  exists w', out. split; [exact Hrun|]. split; [exact Hfile|].
  split; [|rewrite Hlen; vm_compute; reflexivity].
  assert (E : files w' !! REBUILD_AUTO_BAT Examples.project =
              Some (File ("@echo off" +:+ nl +:+ "set LLVM_DIR=C:\L" +:+ nl
                          +:+ "set LLVM_DIR=C:\older" +:+ nl +:+ "call build" +:+ nl))).
  { replace w' with (snd (generate_rebuild_auto_bat (Path "C:\L") Examples.project))
      by (rewrite Hrun; reflexivity).
    vm_compute. reflexivity. }
  rewrite Hfile in E. injection E as E. exact E.
Defined.

(** C7: with a template that has no line setting the variable, script
    generation raises [ValueError] with a message that says so, and with
    no template it raises [FileNotFoundError]; in both cases no file is
    written: the world, the manifest in it included, is as before. *)
Theorem script_generation_fails_without_writing (w : world) (llvm_root : path) :
  (forall content,
      files w !! REBUILD_ALL_BAT w = Some (File content) ->
      Forall (fun l => sets_LLVM_DIR l = false) (lines_of content) ->
      generate_rebuild_auto_bat llvm_root w =
        (inl (ValueError "Could not find 'set LLVM_DIR=...' in rebuild_all.bat"), w)) /\
  (files w !! REBUILD_ALL_BAT w = None ->
   generate_rebuild_auto_bat llvm_root w =
     (inl (FileNotFoundError ("Template not found: " +:+ path_str (REBUILD_ALL_BAT w))), w)).
Proof.
  split.
  - intros content Hfile Hnone.
    unfold generate_rebuild_auto_bat, bind, get.
    rewrite exists_lookup, Hfile. cbn [negb].
    unfold read_text. rewrite Hfile. unfold pattern_search.
    rewrite (existsb_false _ _ Hnone). reflexivity.
  - intros Hfile.
    unfold generate_rebuild_auto_bat, bind, get.
    rewrite exists_lookup, Hfile. reflexivity.
Qed.

Lemma script_generation_fails_without_writing_witness :
  generate_rebuild_auto_bat (Path "C:\L") Examples.template_without_line =
    (inl (ValueError "Could not find 'set LLVM_DIR=...' in rebuild_all.bat"),
     Examples.template_without_line) /\
  generate_rebuild_auto_bat (Path "C:\L") Examples.headers_only_root =
    (inl (FileNotFoundError "Template not found: C:\proj\scripts\rebuild_all.bat"),
     Examples.headers_only_root).
Proof.
  split.
  - apply (proj1 (script_generation_fails_without_writing Examples.template_without_line
                    (Path "C:\L")) ("@echo off" +:+ nl +:+ "call build")).
    + vm_compute; reflexivity.
    + repeat constructor.
  - apply (proj2 (script_generation_fails_without_writing Examples.headers_only_root
                    (Path "C:\L"))).
    vm_compute; reflexivity.
Defined.

(** ** The exit code *)

(** C8: [main] returns 1 when no root is detected, 0 when both files are
    generated and the build is skipped, and what the build script
    returned, unchanged, when both files are generated and the build
    runs; that value is the status the process exits with. *)
Theorem exit_codes (w : world) :
  let no_run := existsb (String.eqb "--no-run") (argv w) in
  let llvm_override := parse_llvm (argv w) None in
  (detect_llvm_path w llvm_override = None ->
   fst (main w) = inr 1%Z /\ files (snd (main w)) = files w /\
   exit_status (fst (main w)) = 1%Z) /\
  (forall llvm_root w1 w2,
      detect_llvm_path w llvm_override = Some llvm_root ->
      generate_llvm_libs_rsp (os_resolve w llvm_root)
        (add_stdout (Using_LLVM (os_resolve w llvm_root)) w) = (inr tt, w1) ->
      generate_rebuild_auto_bat (os_resolve w llvm_root) w1 = (inr tt, w2) ->
      (no_run = true ->
       main w = (inr 0%Z, add_stdout Skipping_build w2) /\
       exit_status (fst (main w)) = 0%Z) /\
      (no_run = false ->
       fst (main w) = inr (fst (shell w2 (REBUILD_AUTO_BAT w2) (files w2))) /\
       exit_status (fst (main w)) = fst (shell w2 (REBUILD_AUTO_BAT w2) (files w2)))).
Proof.
  intros no_run llvm_override. split.
  - intros Hnone. unfold main, bind, get. fold llvm_override. rewrite Hnone.
    simpl. auto.
  - intros llvm_root w1 w2 Hsome Hrsp Hbat.
    assert (Hmain : main w =
              if no_run then (inr 0%Z, add_stdout Skipping_build w2) else run_build w2).
    { unfold main, bind, get. fold llvm_override no_run. rewrite Hsome.
      unfold print at 1. cbn beta iota. rewrite Hrsp. cbn beta iota. rewrite Hbat.
      cbn beta iota. destruct no_run; reflexivity. }
    split; intros Hflag; rewrite Hmain, Hflag.
    + split; reflexivity.
    + unfold run_build, bind, get, print, subprocess_call. simpl.
      destruct (shell w2 (REBUILD_AUTO_BAT w2) (files w2)). split; reflexivity.
Qed.

Lemma exit_codes_witness :
  fst (main (Examples.with_files [])) = inr 1%Z /\
  fst (main Examples.project_no_run) = inr 0%Z /\
  fst (main Examples.project_run) = inr 7%Z.
Proof.
  split; [|split].
  - apply (proj1 (exit_codes (Examples.with_files []))). vm_compute. reflexivity.
  - destruct (proj2 (exit_codes Examples.project_no_run) (Path "C:\L")
                (snd (generate_llvm_libs_rsp (Path "C:\L")
                        (add_stdout (Using_LLVM (Path "C:\L")) Examples.project_no_run)))
                (snd (generate_rebuild_auto_bat (Path "C:\L")
                        (snd (generate_llvm_libs_rsp (Path "C:\L")
                                (add_stdout (Using_LLVM (Path "C:\L"))
                                            Examples.project_no_run))))))
      as [Hskip _]; [vm_compute; reflexivity | apply run_result; vm_compute; reflexivity
                     | apply run_result; vm_compute; reflexivity |].
    destruct Hskip as [Hmain _]; [vm_compute; reflexivity|].
    rewrite Hmain. reflexivity.
  - destruct (proj2 (exit_codes Examples.project_run) (Path "C:\L")
                (snd (generate_llvm_libs_rsp (Path "C:\L")
                        (add_stdout (Using_LLVM (Path "C:\L")) Examples.project_run)))
                (snd (generate_rebuild_auto_bat (Path "C:\L")
                        (snd (generate_llvm_libs_rsp (Path "C:\L")
                                (add_stdout (Using_LLVM (Path "C:\L"))
                                            Examples.project_run))))))
      as [_ Hrun]; [vm_compute; reflexivity | apply run_result; vm_compute; reflexivity
                    | apply run_result; vm_compute; reflexivity |].
    destruct Hrun as [Hmain _]; [vm_compute; reflexivity|].
    rewrite Hmain. vm_compute. reflexivity.
Defined.

(** ** Reading back what manifest generation wrote *)

Lemma splitlines_app_lf (x s : string) :
  free_of Text.is_linebreak x ->
  Text.splitlines (x +:+ String Text.lf s) = x :: Text.splitlines s.
Proof.
  intros Hx. induction x as [|a x IH]; [reflexivity|].
  unfold free_of in Hx. simpl in Hx. apply andb_prop in Hx. destruct Hx as [Ha Hx].
  apply negb_true_iff in Ha. simpl. rewrite Ha, (IH Hx). reflexivity.
Qed.

Lemma splitlines_join (l : list string) :
  l <> [] -> Forall (free_of Text.is_linebreak) l ->
  Text.splitlines (Text.join nl l +:+ nl) = l.
Proof.
  intros Hl Hall. induction Hall as [|x l Hx Hall IH]; [congruence|].
  destruct l as [|y l].
  - simpl Text.join. unfold nl. rewrite splitlines_app_lf by exact Hx. reflexivity.
  - rewrite join_cons by discriminate. rewrite !append_assoc.
    change (nl +:+ Text.join nl (y :: l) +:+ nl)
      with (String Text.lf (Text.join nl (y :: l) +:+ nl)).
    rewrite splitlines_app_lf by exact Hx. rewrite IH by discriminate. reflexivity.
Qed.

Lemma rstrip_keep (P : ascii -> bool) (s : string) (b : ascii) :
  P b = false -> Text.rstrip P (s +:+ String b "") = s +:+ String b "".
Proof.
  intros Hb. induction s as [|c s IH]; simpl; [rewrite Hb; reflexivity|].
  rewrite IH. destruct s; reflexivity.
Qed.

Lemma rstrip_drop (P : ascii -> bool) (s : string) (q : ascii) :
  P q = true -> Text.rstrip P (s +:+ String q "") = Text.rstrip P s.
Proof.
  intros Hq. induction s as [|c s IH]; simpl; [rewrite Hq; reflexivity|].
  rewrite IH. reflexivity.
Qed.

(** Stripping blanks and then quotes from a quoted text gives the text,
    when it begins with [c] and ends with [b], neither being a quote. *)
Lemma strip_quoted (c b : ascii) (x : string) :
  Text.is_quote c = false -> Text.is_quote b = false ->
  Text.strip Text.is_quote
    (Text.strip Text.is_space
       (String Text.quote (String c (x +:+ String b "")) +:+ String Text.quote ""))
  = String c (x +:+ String b "").
Proof.
  intros Hc Hb. set (s := String c (x +:+ String b "")).
  change (String Text.quote s +:+ String Text.quote "")
    with (String Text.quote (s +:+ String Text.quote "")).
  unfold Text.strip.
  assert (L1 : Text.lstrip Text.is_space (String Text.quote (s +:+ String Text.quote ""))
               = String Text.quote s +:+ String Text.quote "") by reflexivity.
  rewrite L1, rstrip_keep by reflexivity.
  assert (L2 : Text.lstrip Text.is_quote (String Text.quote s +:+ String Text.quote "")
               = s +:+ String Text.quote "").
  { change (Text.lstrip Text.is_quote (String c ((x +:+ String b "") +:+ String Text.quote ""))
            = s +:+ String Text.quote "").
    cbn [Text.lstrip]. rewrite Hc. reflexivity. }
  rewrite L2, rstrip_drop by reflexivity.
  exact (rstrip_keep Text.is_quote (String c x) b Hb).
Qed.

Lemma endswith_split (suf s : string) :
  Text.endswith suf s = true -> exists pre, s = pre +:+ suf.
Proof.
  induction s as [|c s IH]; cbn [Text.endswith].
  - rewrite orb_false_r. intros H. apply String.eqb_eq in H. exists "". subst. reflexivity.
  - intros H. apply orb_prop in H. destruct H as [H|H].
    + apply String.eqb_eq in H. exists "". rewrite <- H. reflexivity.
    + destruct (IH H) as [pre ->]. exists (String c pre). reflexivity.
Qed.

Lemma join_snoc (sp : string) (l : list string) (n : string) :
  exists pre, Text.join sp (l ++ [n]) = pre +:+ n.
Proof.
  induction l as [|x l IH]; [exists ""; reflexivity|].
  destruct IH as [pre Hpre]. simpl app.
  rewrite join_cons by (destruct l; discriminate).
  rewrite Hpre. exists (x +:+ sp +:+ pre). rewrite !append_assoc. reflexivity.
Qed.

Lemma all_chars_impl (P Q : ascii -> bool) (s : string) :
  (forall c, P c = true -> Q c = true) ->
  Text.all_chars P s = true -> Text.all_chars Q s = true.
Proof.
  intros HPQ. induction s as [|c s IH]; simpl; [reflexivity|].
  intros H. apply andb_prop in H. destruct H as [Hc Hs].
  rewrite (HPQ c Hc), (IH Hs). reflexivity.
Qed.

Lemma plain_char_no_sep (c : ascii) : plain_char c = true -> negb (is_sep c) = true.
Proof. unfold plain_char. intros H. repeat (apply andb_prop in H; destruct H as [H ?]). exact H. Qed.

Lemma plain_char_no_colon (c : ascii) : plain_char c = true -> is_colon c = false.
Proof.
  unfold plain_char. intros H. repeat (apply andb_prop in H; destruct H as [H ?]).
  apply negb_true_iff. assumption.
Qed.

Lemma plain_char_no_linebreak (c : ascii) :
  plain_char c = true -> negb (Text.is_linebreak c) = true.
Proof. unfold plain_char. intros H. apply andb_prop in H. destruct H as [_ H]. exact H. Qed.

Lemma letter_facts (c : ascii) :
  is_letter c = true ->
  Text.is_quote c = false /\ Text.is_space c = false /\
  Text.is_linebreak c = false /\ c <> "#"%char.
Proof.
  destruct c as [[] [] [] [] [] [] [] []]; intros H; try discriminate H;
    repeat split; try reflexivity; discriminate.
Qed.

Lemma colon_facts (k : ascii) : is_colon k = true -> Text.is_linebreak k = false.
Proof.
  destruct k as [[] [] [] [] [] [] [] []]; intros H; try discriminate H; reflexivity.
Qed.

(** *** Paths and their texts *)

Lemma plain_name_parts (n : string) :
  plain_name n = true -> real_part n = true /\ Text.all_chars plain_char n = true.
Proof. unfold plain_name. intros H. apply andb_prop in H. exact H. Qed.

Lemma split_drive_plain (n : string) :
  Text.all_chars plain_char n = true -> split_drive n = ("", n).
Proof.
  destruct n as [|c [|k r]]; try reflexivity. cbn [Text.all_chars split_drive].
  intros H. apply andb_prop in H. destruct H as [_ H].
  apply andb_prop in H. destruct H as [Hk _].
  rewrite (plain_char_no_colon k Hk), andb_false_r. reflexivity.
Qed.

Lemma Path_plain (n : string) : plain_name n = true -> Path n = mk_path "" false [n].
Proof.
  intros H. apply plain_name_parts in H. destruct H as [Hreal Hchars].
  unfold Path. rewrite (split_drive_plain n Hchars).
  rewrite (split_on_free_id is_sep n)
    by (exact (all_chars_impl _ _ n plain_char_no_sep Hchars)).
  cbn [List.filter]. rewrite Hreal. f_equal.
  destruct n as [|c n]; [reflexivity|].
  cbn [Text.all_chars] in Hchars. apply andb_prop in Hchars. destruct Hchars as [Hc _].
  apply plain_char_no_sep, negb_true_iff in Hc. exact Hc.
Qed.

Lemma joinpath_plain (p : path) (n : string) :
  plain_name n = true ->
  p </> n = mk_path (drive p) (root p) (parts p ++ [n]).
Proof. intros H. unfold joinpath. rewrite (Path_plain n H). reflexivity. Qed.

Lemma absolute_path_join (p : path) (n : string) :
  absolute_path p = true -> plain_name n = true -> absolute_path (p </> n) = true.
Proof.
  intros Hp Hn. rewrite (joinpath_plain p n Hn).
  unfold absolute_path in *. cbn [drive root parts].
  apply andb_prop in Hp. destruct Hp as [Hp Hparts].
  rewrite Hp, forallb_app, Hparts. cbn [forallb]. rewrite Hn. reflexivity.
Qed.

Lemma filter_real_parts (ps : list string) :
  forallb plain_name ps = true -> List.filter real_part ps = ps.
Proof.
  induction ps as [|x ps IH]; [reflexivity|]. cbn [forallb List.filter].
  intros H. apply andb_prop in H. destruct H as [Hx Hps].
  apply plain_name_parts in Hx. destruct Hx as [Hx _].
  rewrite Hx, (IH Hps). reflexivity.
Qed.

Lemma parts_sep_free (ps : list string) :
  forallb plain_name ps = true -> Forall (free_of is_sep) ps.
Proof.
  intros H. apply List.Forall_forall. intros x Hx.
  rewrite forallb_forall in H. specialize (H x Hx).
  apply plain_name_parts in H. destruct H as [_ H].
  exact (all_chars_impl _ _ x plain_char_no_sep H).
Qed.

(** The text of an absolute path: the drive, the root, the components. *)
Lemma path_str_absolute (p : path) :
  absolute_path p = true ->
  exists c k, drive p = String c (String k "") /\ is_letter c = true /\
              is_colon k = true /\
              path_str p = String c (String k (String "\" (Text.join sep (parts p)))).
Proof.
  unfold absolute_path. intros H.
  apply andb_prop in H. destruct H as [H _]. apply andb_prop in H. destruct H as [Hd Hr].
  destruct p as [d r ps]. cbn [drive root parts] in *. subst r.
  destruct d as [|c [|k [|? ?]]]; try discriminate Hd.
  cbn [is_drive] in Hd. apply andb_prop in Hd. destruct Hd as [Hc Hk].
  exists c, k. repeat split; try assumption.
Qed.

(** Reading the text of an absolute path gives the path back. *)
Lemma Path_path_str (p : path) : absolute_path p = true -> Path (path_str p) = p.
Proof.
  intros Hp. destruct (path_str_absolute p Hp) as (c & k & Hd & Hc & Hk & Hs).
  unfold absolute_path in Hp. apply andb_prop in Hp. destruct Hp as [Hp Hparts].
  apply andb_prop in Hp. destruct Hp as [_ Hr].
  rewrite Hs. unfold Path. cbn [split_drive]. rewrite Hc, Hk. cbn [andb].
  destruct p as [d r ps]. cbn [drive root parts] in *. subst d r. f_equal.
  cbn [Text.split_on]. change (is_sep "\") with true. cbn iota.
  cbn [List.filter]. change (real_part "") with false. cbn iota.
  destruct ps as [|x ps]; [reflexivity|].
  unfold sep. rewrite (split_on_join is_sep "\"%char (x :: ps));
    [apply filter_real_parts; exact Hparts | reflexivity | discriminate
     | apply parts_sep_free; exact Hparts].
Qed.

Lemma library_name_parts (n : string) :
  library_name n = true -> plain_name n = true /\ Text.endswith ".lib" n = true.
Proof. unfold library_name. intros H. apply andb_prop in H. exact H. Qed.

Lemma startswith_hash (c : ascii) (s : string) :
  c <> "#"%char -> Text.startswith "#" (String c s) = false.
Proof.
  intros Hc. unfold Text.startswith. cbn [String.prefix].
  destruct (ascii_dec "#" c) as [E|E]; [congruence | reflexivity].
Qed.

(** An absolute path that ends in a library name has a text that starts
    with a letter and ends with the last letter of the extension. *)
Lemma library_path_text (d : path) (n : string) :
  absolute_path d = true -> library_name n = true ->
  exists c x, is_letter c = true /\
              path_str (d </> n) = String c (x +:+ String "b" "").
Proof.
  intros Hd Hn. apply library_name_parts in Hn. destruct Hn as [Hplain Hend].
  pose proof (absolute_path_join d n Hd Hplain) as Hq.
  destruct (path_str_absolute _ Hq) as (c & k & _ & Hc & _ & Hs).
  rewrite (joinpath_plain d n Hplain) in Hs at 2. cbn [parts] in Hs.
  destruct (join_snoc sep (parts d) n) as [pre Hpre]. rewrite Hpre in Hs.
  destruct (endswith_split _ _ Hend) as [n0 Hn0].
  exists c, (String k (String "\" (pre +:+ n0 +:+ ".li"))). split; [exact Hc|].
  rewrite Hs. rewrite Hn0 at 1. cbn [String.append]. rewrite !append_assoc. reflexivity.
Qed.

(** A line of the manifest reads back as the basename it was made from. *)
Lemma basename_of_rsp_line (d : path) (n : string) :
  absolute_path d = true -> library_name n = true ->
  basename_of_line (rsp_line d n) = Some n.
Proof.
  intros Hd Hn.
  destruct (library_path_text d n Hd Hn) as (c & x & Hc & Hs).
  destruct (letter_facts c Hc) as (Hquote & _ & _ & Hhash).
  apply library_name_parts in Hn. destruct Hn as [Hplain Hend].
  unfold basename_of_line, rsp_line. rewrite Hs.
  rewrite (strip_quoted c "b" x Hquote eq_refl).
  rewrite (startswith_hash c _ Hhash). cbn [Text.truthy String.eqb negb orb].
  rewrite <- Hs, (Path_path_str _ (absolute_path_join d n Hd Hplain)).
  rewrite (joinpath_plain d n Hplain). unfold name. cbn [parts].
  rewrite last_last, Hend. reflexivity.
Qed.

Lemma rsp_line_free (d : path) (n : string) :
  absolute_path d = true -> library_name n = true ->
  free_of Text.is_linebreak (rsp_line d n).
Proof.
  intros Hd Hn. apply library_name_parts in Hn. destruct Hn as [Hplain _].
  pose proof (absolute_path_join d n Hd Hplain) as Hq.
  destruct (path_str_absolute _ Hq) as (c & k & _ & Hc & Hk & Hs).
  destruct (letter_facts c Hc) as (_ & _ & Hlb & _).
  unfold free_of, rsp_line. rewrite Hs. cbn [String.append Text.all_chars].
  rewrite Hlb, (colon_facts k Hk). change (Text.is_linebreak Text.quote) with false.
  change (Text.is_linebreak "\") with false. cbn [negb andb].
  rewrite all_chars_app. cbn [Text.all_chars].
  change (Text.is_linebreak Text.quote) with false. cbn [negb andb].
  rewrite andb_true_r. apply all_chars_join; [reflexivity|].
  apply List.Forall_forall. intros y Hy.
  unfold absolute_path in Hq. apply andb_prop in Hq. destruct Hq as [_ Hparts].
  rewrite forallb_forall in Hparts. specialize (Hparts y Hy).
  apply plain_name_parts in Hparts. destruct Hparts as [_ Hchars].
  exact (all_chars_impl _ _ y plain_char_no_linebreak Hchars).
Qed.

Lemma omap_cons_Some {A B} (f : A -> option B) (x : A) (y : B) (l : list A) :
  f x = Some y -> omap f (x :: l) = y :: omap f l.
Proof. intros H. simpl. rewrite H. reflexivity. Qed.

(** The manifest written for a non-empty list of library names reads
    back as that list. *)
Lemma read_basenames_manifest (d : path) (ns : list string) :
  absolute_path d = true -> ns <> [] -> forallb library_name ns = true ->
  read_basenames (Text.join nl (map (rsp_line d) ns) +:+ nl) = ns.
Proof.
  intros Hd Hne Hns. unfold read_basenames.
  rewrite forallb_forall in Hns.
  rewrite splitlines_join.
  - clear Hne. induction ns as [|n ns IH]; [reflexivity|].
    rewrite map_cons.
    rewrite (omap_cons_Some _ _ _ _ (basename_of_rsp_line d n Hd (Hns n (or_introl eq_refl)))).
    f_equal. apply IH. intros y Hy. apply Hns. right. exact Hy.
  - destruct ns; [congruence | discriminate].
  - apply List.Forall_forall. intros l Hl. apply in_map_iff in Hl.
    destruct Hl as (n & <- & Hn). apply rsp_line_free; [exact Hd | exact (Hns n Hn)].
Qed.

(** ** Running manifest generation twice *)

Lemma exists_manifest_written (w : world) (llvm_root p : path) :
  exists_ w p = true -> exists_ (manifest_written w llvm_root) p = true.
Proof.
  unfold exists_, manifest_written. cbn [files].
  destruct (decide (LLVM_LIBS_RSP w = p)) as [->|Hne].
  - rewrite lookup_insert_eq. reflexivity.
  - rewrite lookup_insert_ne by exact Hne. tauto.
Qed.

Lemma existing_basenames_manifest_written (w : world) (llvm_root : path) :
  existing_basenames (manifest_written w llvm_root) =
    read_basenames (manifest_text w llvm_root).
Proof.
  unfold existing_basenames, manifest_written, LLVM_LIBS_RSP. cbn [files SCRIPT_DIR].
  rewrite lookup_insert_eq. reflexivity.
Qed.

Lemma generate_again (w : world) (llvm_root : path) :
  exists_ w (llvm_root </> "lib") = true ->
  generate_llvm_libs_rsp llvm_root (manifest_written w llvm_root) =
    (inr tt, manifest_written (manifest_written w llvm_root) llvm_root).
Proof.
  intros Hlib. apply generate_llvm_libs_rsp_returns.
  - apply exists_manifest_written. exact Hlib.
  - unfold is_dir, manifest_written, LLVM_LIBS_RSP. cbn [files SCRIPT_DIR].
    rewrite lookup_insert_eq. reflexivity.
Qed.

Lemma files_written_again (w : world) (llvm_root : path) :
  manifest_text (manifest_written w llvm_root) llvm_root = manifest_text w llvm_root ->
  files (manifest_written (manifest_written w llvm_root) llvm_root) =
    files (manifest_written w llvm_root).
Proof.
  intros H. unfold manifest_written at 1. cbn [files]. rewrite H.
  unfold manifest_written, LLVM_LIBS_RSP. cbn [files SCRIPT_DIR].
  apply insert_insert_eq.
Qed.

Lemma filter_all {A} (f : A -> bool) (l : list A) :
  (forall x, In x l -> f x = true) -> List.filter f l = l.
Proof.
  induction l as [|a l IH]; [reflexivity|]. intros H. cbn [List.filter].
  rewrite (H a (or_introl eq_refl)). f_equal. apply IH. intros x Hx. apply H. right. exact Hx.
Qed.

(** The keys of the file map after the manifest is written. *)
Lemma key_of_manifest_written (w : world) (llvm_root p : path) :
  In p (map fst (map_to_list (files (manifest_written w llvm_root)))) ->
  p = LLVM_LIBS_RSP w \/ In p (map fst (map_to_list (files w))).
Proof.
  intros H. apply in_map_iff in H. destruct H as ([q x] & Hq & Hin). simpl in Hq. subst q.
  apply list_elem_of_In, elem_of_map_to_list in Hin.
  unfold manifest_written in Hin. cbn [files] in Hin.
  destruct (decide (LLVM_LIBS_RSP w = p)) as [->|Hne]; [left; reflexivity|].
  right. rewrite lookup_insert_ne in Hin by exact Hne.
  apply in_map_iff. exists (p, x). split; [reflexivity|].
  apply list_elem_of_In, elem_of_map_to_list. exact Hin.
Qed.

Lemma manifest_is_no_library (w : world) : glob_match (name (LLVM_LIBS_RSP w)) = false.
Proof.
  unfold LLVM_LIBS_RSP. rewrite joinpath_plain by reflexivity.
  unfold name. cbn [parts]. rewrite last_last. reflexivity.
Qed.

Lemma glob_stays_empty (w : world) (llvm_root d : path) :
  glob_llvm_libs w d = [] -> glob_llvm_libs (manifest_written w llvm_root) d = [].
Proof.
  intros Hw.
  destruct (glob_llvm_libs (manifest_written w llvm_root) d) as [|p l] eqn:E; [reflexivity|].
  exfalso.
  assert (Hp : In p (glob_llvm_libs (manifest_written w llvm_root) d))
    by (rewrite E; left; reflexivity).
  unfold glob_llvm_libs, iterdir in Hp.
  apply filter_In in Hp. destruct Hp as [Hp Hmatch].
  apply filter_In in Hp. destruct Hp as [Hkey Hchild].
  apply key_of_manifest_written in Hkey. destruct Hkey as [->|Hkey].
  - rewrite manifest_is_no_library in Hmatch. discriminate.
  - assert (Hin : In p (glob_llvm_libs w d)).
    { unfold glob_llvm_libs, iterdir. apply filter_In. split; [|exact Hmatch].
      apply filter_In. split; assumption. }
    rewrite Hw in Hin. destruct Hin.
Qed.

Lemma choose_basenames_listed (w : world) (d : path) (l : list string) :
  l <> [] -> choose_basenames w d l = l.
Proof. destruct l; [congruence | reflexivity]. Qed.

(** C5, as the code has it: with an absolute root, an existing library
    directory and library names that are plain file names, a second run
    of manifest generation rewrites the manifest of the first run byte
    for byte, provided the first run listed at least one library or the
    library directory holds no entry matching LLVM*.lib. *)
Theorem second_run_rewrites_the_same_manifest (w : world) (llvm_root : path) :
  exists_ w (llvm_root </> "lib") = true ->
  is_dir w (LLVM_LIBS_RSP w) = false ->
  absolute_path llvm_root = true ->
  forallb library_name (present w llvm_root) = true ->
  present w llvm_root <> [] \/ glob_llvm_libs w (llvm_root </> "lib") = [] ->
  exists w1 w2,
    generate_llvm_libs_rsp llvm_root w = (inr tt, w1) /\
    generate_llvm_libs_rsp llvm_root w1 = (inr tt, w2) /\
    files w2 !! LLVM_LIBS_RSP w = files w1 !! LLVM_LIBS_RSP w /\
    files w2 = files w1.
Proof.
  intros Hlib Hrsp Habs Hnames Hcase.
  exists (manifest_written w llvm_root),
         (manifest_written (manifest_written w llvm_root) llvm_root).
  split; [apply generate_llvm_libs_rsp_returns; assumption|].
  split; [apply generate_again; exact Hlib|].
  assert (Hpresent : present (manifest_written w llvm_root) llvm_root
                     = present w llvm_root).
  { unfold present at 1, lib_basenames.
    rewrite existing_basenames_manifest_written.
    destruct (decide (present w llvm_root = [])) as [Eempty|Hne].
    - destruct Hcase as [Hne|Hglob]; [congruence|].
      unfold manifest_text. rewrite Eempty. cbn [map Text.join].
      change (read_basenames ("" +:+ nl)) with (@nil string).
      unfold choose_basenames. rewrite (glob_stays_empty w llvm_root _ Hglob). reflexivity.
    - unfold manifest_text.
      rewrite read_basenames_manifest;
        [| apply absolute_path_join; [exact Habs | reflexivity] | exact Hne | exact Hnames].
      rewrite (choose_basenames_listed _ _ _ Hne).
      apply filter_all. intros x Hx. apply exists_manifest_written.
      unfold present in Hx. apply filter_In in Hx. destruct Hx as [_ Hx]. exact Hx. }
  assert (Htext : manifest_text (manifest_written w llvm_root) llvm_root
                  = manifest_text w llvm_root).
  { unfold manifest_text. rewrite Hpresent. reflexivity. }
  rewrite (files_written_again w llvm_root Htext). split; reflexivity.
Qed.

Lemma second_run_rewrites_the_same_manifest_witness :
  present Examples.fresh_project (Path "C:\L") = ["LLVMCore.lib"; "LLVMSupport.lib"] /\
  exists w1 w2,
    generate_llvm_libs_rsp (Path "C:\L") Examples.fresh_project = (inr tt, w1) /\
    generate_llvm_libs_rsp (Path "C:\L") w1 = (inr tt, w2) /\
    files w2 !! LLVM_LIBS_RSP Examples.fresh_project =
      files w1 !! LLVM_LIBS_RSP Examples.fresh_project.
Proof.
  split; [vm_compute; reflexivity|].
  destruct (second_run_rewrites_the_same_manifest Examples.fresh_project (Path "C:\L"))
    as (w1 & w2 & H1 & H2 & H3 & _);
    [vm_compute; reflexivity | vm_compute; reflexivity | vm_compute; reflexivity
     | vm_compute; reflexivity | left; vm_compute; discriminate |].
  exists w1, w2. auto.
Defined.

(** C5 as stated fails: when the manifest names only libraries that are
    gone, the first run writes an empty manifest and the second run,
    finding no basename in it, lists the libraries of the directory. *)
Lemma stale_manifest_is_rewritten_differently :
  exists w1 w2,
    generate_llvm_libs_rsp (Path "C:\L") Examples.stale_manifest = (inr tt, w1) /\
    generate_llvm_libs_rsp (Path "C:\L") w1 = (inr tt, w2) /\
    iterdir w1 (Path "C:\L\lib") = iterdir Examples.stale_manifest (Path "C:\L\lib") /\
    files w1 !! LLVM_LIBS_RSP Examples.stale_manifest = Some (File nl) /\
    files w2 !! LLVM_LIBS_RSP Examples.stale_manifest =
      Some (File (rsp_line (Path "C:\L\lib") "LLVMCore.lib" +:+ nl)) /\
    files w2 !! LLVM_LIBS_RSP Examples.stale_manifest <>
      files w1 !! LLVM_LIBS_RSP Examples.stale_manifest.
Proof.
  exists (snd (generate_llvm_libs_rsp (Path "C:\L") Examples.stale_manifest)).
  exists (snd (generate_llvm_libs_rsp (Path "C:\L")
                 (snd (generate_llvm_libs_rsp (Path "C:\L") Examples.stale_manifest)))).
  split; [apply run_result; vm_compute; reflexivity|].
  split; [apply run_result; vm_compute; reflexivity|].
  split; [vm_compute; reflexivity|].
  split; [vm_compute; reflexivity|].
  split; [vm_compute; reflexivity|].
  vm_compute. discriminate.
Qed.

(** * Further properties of the script *)

(** ** What detection accepts *)

Lemma from_override_marker (w : world) (s : string) (p : path) :
  from_override w s = Some p ->
  p = resolve w s /\ has_core_lib w p || has_include_llvm w p = true.
Proof.
  unfold from_override.
  destruct (has_core_lib w (resolve w s)) eqn:Ec.
  - intros [= <-]. rewrite Ec. auto.
  - destruct (has_include_llvm w (resolve w s)) eqn:Ei; [|discriminate].
    intros [= <-]. rewrite Ec, Ei. auto.
Qed.

Lemma from_environment_marker (w : world) (names : list string) (p : path) :
  from_environment w names = Some p ->
  exists env v, In env names /\ environ w !! env = Some v /\ Text.truthy v = true /\
                p = resolve w v /\ has_core_lib w p || has_include_llvm w p = true.
Proof.
  induction names as [|env names IH]; simpl; [discriminate|].
  destruct (supplied (environ w !! env)) as [v|] eqn:Es.
  - apply supplied_Some in Es. destruct Es as [Hv Ht].
    destruct (has_core_lib w (resolve w v) || has_include_llvm w (resolve w v)) eqn:Em.
    + intros [= <-]. exists env, v. auto.
    + intros H. destruct (IH H) as (e & v' & He & Hrest). exists e, v'. auto.
  - intros H. destruct (IH H) as (e & v' & He & Hrest). exists e, v'. auto.
Qed.

Lemma iterdir_child (w : world) (d q : path) :
  In q (iterdir w d) -> parent q = d /\ parts q <> [] /\ exists_ w q = true.
Proof.
  unfold iterdir. intros H. apply filter_In in H. destruct H as [Hkey Hchild].
  unfold child_of in Hchild. apply andb_prop in Hchild. destruct Hchild as [Hp Hn].
  apply bool_decide_eq_true in Hp. apply negb_true_iff, bool_decide_eq_false in Hn.
  split; [exact Hp|]. split; [exact Hn|].
  apply in_map_iff in Hkey. destruct Hkey as ([k x] & Hk & Hin). simpl in Hk. subst k.
  apply list_elem_of_In, elem_of_map_to_list in Hin.
  unfold exists_. rewrite Hin. reflexivity.
Qed.

Lemma examine_base_result (w : world) (base p : path) :
  examine_base w base = Some p ->
  is_dir w base = true /\ has_core_lib w p = true /\
  (p = base \/ In p (iterdir w base) /\ is_dir w p = true).
Proof.
  unfold examine_base. destruct (is_dir w base) eqn:Ed; [|discriminate].
  destruct (has_core_lib w base) eqn:Ec.
  - intros [= <-]. auto.
  - intros H. apply find_some in H. destruct H as [Hin Hp].
    apply andb_prop in Hp. destruct Hp as [Hdir Hlib]. auto.
Qed.

Lemma from_common_locations_result (w : world) (cands : list path) (p : path) :
  from_common_locations w cands = Some p ->
  exists base, In base cands /\ exists_ w base = true /\ examine_base w base = Some p.
Proof.
  induction cands as [|base cands IH]; simpl; [discriminate|].
  destruct (exists_ w base) eqn:Ee; simpl.
  - intros H. exists base. auto.
  - intros H. destruct (IH H) as (b & Hb & Hrest). exists b. auto.
Qed.

Lemma from_clang_result (w : world) (root : path) :
  from_clang w = Some root ->
  exists out l ls,
    where_clang w = Some (0%Z, out) /\
    Text.splitlines (Text.strip Text.is_space out) = l :: ls /\
    root = parent (parent (Path (Text.strip Text.is_space l))) /\
    (Text.lower (suffix (Path (Text.strip Text.is_space l))) = ".exe" \/
     suffix (Path (Text.strip Text.is_space l)) = "") /\
    has_core_lib w root = true.
Proof.
  unfold from_clang. destruct (where_clang w) as [[rc out]|]; [|discriminate].
  destruct (rc =? 0)%Z eqn:Erc; [|discriminate]. apply Z.eqb_eq in Erc. subst rc.
  cbn [andb].
  destruct (Text.truthy (Text.strip Text.is_space out)); [|discriminate].
  destruct (Text.splitlines (Text.strip Text.is_space out)) as [|l ls] eqn:El;
    [discriminate|].
  set (sfx := Text.lower (suffix (Path (Text.strip Text.is_space l)))).
  destruct ((sfx =? ".exe") || (sfx =? "")) eqn:Es; [|discriminate].
  destruct (has_core_lib w (parent (parent (Path (Text.strip Text.is_space l))))) eqn:Ec;
    [|discriminate].
  intros [= <-]. exists out, l, ls.
  split; [reflexivity|]. split; [exact El|]. split; [reflexivity|].
  split; [|exact Ec].
  apply orb_prop in Es. destruct Es as [Es|Es]; apply String.eqb_eq in Es.
  - left. exact Es.
  - right. unfold sfx in Es.
    destruct (suffix (Path (Text.strip Text.is_space l))); [reflexivity | discriminate Es].
Qed.

(** X1: a non-empty override under whose resolved directory either
    marker exists is the result of detection, whatever the environment,
    the well-known directories and the search path hold. *)
Theorem override_with_marker_is_accepted (w : world) (o : string) :
  Text.truthy o = true ->
  has_core_lib w (resolve w o) || has_include_llvm w (resolve w o) = true ->
  detect_llvm_path w (Some o) = Some (resolve w o).
Proof.
  intros Ht Hm. unfold detect_llvm_path. cbn [supplied]. rewrite Ht.
  unfold from_override. apply orb_prop in Hm.
  destruct (has_core_lib w (resolve w o)); [reflexivity|].
  destruct Hm as [Hm|Hm]; [discriminate|]. rewrite Hm. reflexivity.
Qed.

Lemma override_with_marker_is_accepted_witness :
  detect_llvm_path Scenes.two_installations None = Some (Path "C:\L") /\
  detect_llvm_path Scenes.two_installations (Some "C:\O") = Some (Path "C:\O").
Proof.
  split; [vm_compute; reflexivity|].
  apply (override_with_marker_is_accepted Scenes.two_installations "C:\O");
    vm_compute; reflexivity.
Defined.

(** X2: whatever strategy finds it, a detected root shows a marker: the
    core library or the header directory when it comes from the override
    or the environment, the core library when it comes from a well-known
    directory or from the compiler on the search path. *)
Theorem detected_root_shows_a_marker (w : world) (o : option string) (p : path) :
  detect_llvm_path w o = Some p ->
  has_core_lib w p || has_include_llvm w p = true /\
  (supplied o = None -> from_environment w ENV_NAMES = None -> has_core_lib w p = true).
Proof.
  intros H.
  assert (Hlater : supplied o = None -> from_environment w ENV_NAMES = None ->
                   has_core_lib w p = true).
  { intros Ho He. unfold detect_llvm_path in H. rewrite Ho, He in H.
    destruct (from_common_locations w candidates) as [q|] eqn:Ec.
    - injection H as <-.
      apply from_common_locations_result in Ec. destruct Ec as (b & _ & _ & Hb).
      apply examine_base_result in Hb. tauto.
    - apply from_clang_result in H.
      destruct H as (out & l & ls & _ & _ & _ & _ & Hc). exact Hc. }
  split; [|exact Hlater].
  destruct (supplied o) as [s|] eqn:Eo.
  - unfold detect_llvm_path in H. rewrite Eo in H.
    apply from_override_marker in H. tauto.
  - destruct (from_environment w ENV_NAMES) as [q|] eqn:Ee.
    + unfold detect_llvm_path in H. rewrite Eo, Ee in H. injection H as <-.
      apply from_environment_marker in Ee.
      destruct Ee as (e & v & _ & _ & _ & _ & Hm). exact Hm.
    + rewrite (Hlater eq_refl eq_refl). reflexivity.
Qed.

Lemma detected_root_shows_a_marker_witness :
  has_core_lib Scenes.clang_on_path (Path "C:\T") = true.
Proof.
  apply (proj2 (detected_root_shows_a_marker Scenes.clang_on_path None (Path "C:\T")
                  ltac:(vm_compute; reflexivity)));
    vm_compute; reflexivity.
Defined.

Lemma from_clang_failed_query (w : world) :
  where_clang w = None \/
  (exists rc out, where_clang w = Some (rc, out) /\ rc <> 0%Z) ->
  from_clang w = None.
Proof.
  unfold from_clang. intros [H | (rc & out & H & Hrc)]; rewrite H; [reflexivity|].
  apply Z.eqb_neq in Hrc. rewrite Hrc. reflexivity.
Qed.

(** X3: without an override, with every variable unset or naming a
    directory without marker, with none of the well-known directories
    present and with the query for the compiler raising or ending with a
    status other than zero, detection finds nothing; [main] then writes
    its three lines to the error stream, touches no file and returns 1. *)
Theorem nothing_to_detect (w : world) (o : option string) :
  supplied o = None ->
  Forall (passed_over w) ENV_NAMES ->
  Forall (fun c => exists_ w c = false) candidates ->
  where_clang w = None \/
  (exists rc out, where_clang w = Some (rc, out) /\ rc <> 0%Z) ->
  detect_llvm_path w o = None /\
  (o = parse_llvm (argv w) None ->
   main w = (inr 1%Z,
             add_stderr Hint_run_with_llvm
               (add_stderr Hint_set_environment (add_stderr Error_could_not_detect w))) /\
   exit_status (fst (main w)) = 1%Z).
Proof.
  intros Ho Henv Hcand Hclang.
  assert (Hnone : detect_llvm_path w o = None).
  { unfold detect_llvm_path. rewrite Ho.
    rewrite <- (app_nil_r ENV_NAMES), (from_environment_skip w _ [] Henv).
    rewrite <- (app_nil_r candidates), (from_common_locations_skip w _ [] Hcand).
    cbn [from_environment from_common_locations].
    apply from_clang_failed_query. exact Hclang. }
  split; [exact Hnone|]. intros ->.
  assert (Hmain : main w = (inr 1%Z,
             add_stderr Hint_run_with_llvm
               (add_stderr Hint_set_environment (add_stderr Error_could_not_detect w)))).
  { unfold main, bind, get. rewrite Hnone. reflexivity. }
  rewrite Hmain. split; reflexivity.
Qed.

Lemma nothing_to_detect_witness :
  detect_llvm_path Scenes.clang_not_found None = None /\
  fst (main Scenes.clang_not_found) = inr 1%Z.
Proof.
  destruct (nothing_to_detect Scenes.clang_not_found None) as [Hd Hm].
  - reflexivity.
  - repeat constructor.
  - repeat constructor.
  - right. exists 1%Z, "". split; [reflexivity | discriminate].
  - split; [exact Hd|]. destruct Hm as [Hm _]; [reflexivity|]. rewrite Hm. reflexivity.
Defined.

(** X4: what the well-known directories give is one of them, present
    and a directory, or an entry directly below it that is a directory;
    in both cases the core library exists under the result. *)
Theorem well_known_result_is_base_or_entry (w : world) (p : path) :
  from_common_locations w candidates = Some p ->
  exists base,
    In base candidates /\ exists_ w base = true /\ is_dir w base = true /\
    has_core_lib w p = true /\
    (p = base \/ parent p = base /\ parts p <> [] /\ is_dir w p = true).
Proof.
  intros H. apply from_common_locations_result in H.
  destruct H as (base & Hin & Hex & Hb). exists base.
  apply examine_base_result in Hb. destruct Hb as (Hdir & Hlib & Hp).
  split; [exact Hin|]. split; [exact Hex|]. split; [exact Hdir|]. split; [exact Hlib|].
  destruct Hp as [Hp | [Hchild Hpdir]]; [left; exact Hp|].
  right. apply iterdir_child in Hchild. tauto.
Qed.

Lemma well_known_result_is_base_or_entry_witness :
  exists base,
    In base candidates /\ exists_ Examples.versioned_base base = true /\
    is_dir Examples.versioned_base base = true /\
    has_core_lib Examples.versioned_base (Path "C:\LLVM-dev\21") = true /\
    (Path "C:\LLVM-dev\21" = base \/
     parent (Path "C:\LLVM-dev\21") = base /\ parts (Path "C:\LLVM-dev\21") <> [] /\
     is_dir Examples.versioned_base (Path "C:\LLVM-dev\21") = true).
Proof.
  apply (well_known_result_is_base_or_entry Examples.versioned_base (Path "C:\LLVM-dev\21")).
  vm_compute. reflexivity.
Defined.

(** X5: the compiler on the search path gives a root only when the query
    ends with status zero; the root is then two levels above the first
    line of the answer, blanks stripped, whose suffix is that of an
    executable or empty, and the core library exists under it.  A query
    that raises or ends with another status gives nothing. *)
Theorem clang_root_comes_from_first_answer (w : world) :
  (where_clang w = None -> from_clang w = None) /\
  (forall rc out, where_clang w = Some (rc, out) -> rc <> 0%Z -> from_clang w = None) /\
  (forall root,
      from_clang w = Some root ->
      exists out l ls,
        where_clang w = Some (0%Z, out) /\
        Text.splitlines (Text.strip Text.is_space out) = l :: ls /\
        root = parent (parent (Path (Text.strip Text.is_space l))) /\
        (Text.lower (suffix (Path (Text.strip Text.is_space l))) = ".exe" \/
         suffix (Path (Text.strip Text.is_space l)) = "") /\
        has_core_lib w root = true).
Proof.
  split; [|split].
  - intros H. apply from_clang_failed_query. left. exact H.
  - intros rc out H Hrc. apply from_clang_failed_query. right. exists rc, out. auto.
  - exact (from_clang_result w).
Qed.

Lemma clang_root_comes_from_first_answer_witness :
  from_clang Scenes.clang_not_found = None /\
  from_clang Scenes.clang_on_path = Some (Path "C:\T") /\
  exists out l ls,
    where_clang Scenes.clang_on_path = Some (0%Z, out) /\
    Text.splitlines (Text.strip Text.is_space out) = l :: ls /\
    Path "C:\T" = parent (parent (Path (Text.strip Text.is_space l))).
Proof.
  split; [|split].
  - apply (proj1 (proj2 (clang_root_comes_from_first_answer Scenes.clang_not_found))
             1%Z ""); [reflexivity | discriminate].
  - vm_compute. reflexivity.
  - destruct (proj2 (proj2 (clang_root_comes_from_first_answer Scenes.clang_on_path))
                (Path "C:\T")) as (out & l & ls & H1 & H2 & H3 & _);
      [vm_compute; reflexivity|].
    exists out, l, ls. auto.
Defined.

(** ** The command line *)

Lemma parse_llvm_skip (pre rest : list string) (acc : option string) :
  ~ In "--llvm" pre -> parse_llvm (pre ++ rest) acc = parse_llvm rest acc.
Proof.
  induction pre as [|a pre IH]; intros Hpre; [reflexivity|].
  assert (Ha : (a =? "--llvm") = false).
  { apply String.eqb_neq. intros ->. apply Hpre. left. reflexivity. }
  assert (Hpre' : ~ In "--llvm" pre) by (intros H; apply Hpre; right; exact H).
  specialize (IH Hpre').
  cbn [app parse_llvm]. destruct (pre ++ rest) as [|b tl] eqn:E.
  - destruct pre; [|discriminate E]. simpl in E. subst rest. reflexivity.
  - rewrite Ha. exact IH.
Qed.

(** X6: when the option that names the root occurs once on the command
    line and an argument follows it, that argument is the override,
    whatever it is and wherever the pair stands. *)
Theorem llvm_option_gives_the_override
    (pre post : list string) (v : string) (acc : option string) :
  ~ In "--llvm" pre -> ~ In "--llvm" post ->
  parse_llvm (pre ++ "--llvm" :: v :: post) acc = Some v.
Proof.
  intros Hpre Hpost. rewrite parse_llvm_skip by exact Hpre.
  cbn [parse_llvm]. change ("--llvm" =? "--llvm") with true. cbn iota.
  rewrite <- (app_nil_r post). rewrite parse_llvm_skip by exact Hpost. reflexivity.
Qed.

Lemma llvm_option_gives_the_override_witness :
  parse_llvm (["build_auto.py"; "--no-run"] ++ "--llvm" :: "--no-run" :: ["x"]) None
  = Some "--no-run".
Proof.
  apply llvm_option_gives_the_override.
  - intros [H|[H|[]]]; discriminate H.
  - intros [H|[]]; discriminate H.
Defined.

(** X7: a command line without the option, or with the option as its
    last argument only, leaves the override as it was: nothing follows
    the option, so it is ignored without an error. *)
Theorem llvm_option_without_value_is_ignored (pre : list string) (acc : option string) :
  ~ In "--llvm" pre ->
  parse_llvm pre acc = acc /\ parse_llvm (pre ++ ["--llvm"]) acc = acc.
Proof.
  intros Hpre. split.
  - rewrite <- (app_nil_r pre). rewrite parse_llvm_skip by exact Hpre. reflexivity.
  - rewrite parse_llvm_skip by exact Hpre. reflexivity.
Qed.

Lemma llvm_option_without_value_is_ignored_witness :
  parse_llvm ["build_auto.py"; "--no-run"] None = None /\
  parse_llvm (["build_auto.py"; "--no-run"] ++ ["--llvm"]) None = None.
Proof.
  apply llvm_option_without_value_is_ignored.
  intros [H|[H|[]]]; discriminate H.
Defined.

(** ** More on the manifest *)

Lemma last_in_list {A} (l : list A) (d : A) : l <> [] -> In (List.last l d) l.
Proof.
  induction l as [|a l IH]; [congruence|]. intros _.
  destruct l as [|b l]; [left; reflexivity|].
  right. apply IH. discriminate.
Qed.

(** The name of a parsed path is empty or a component without separator. *)
Lemma name_of_Path (s : string) :
  name (Path s) = "" \/
  real_part (name (Path s)) = true /\ free_of is_sep (name (Path s)).
Proof.
  unfold name, Path. destruct (split_drive s) as [drv rest]. cbn [parts].
  destruct (List.filter real_part (Text.split_on is_sep rest)) as [|x l] eqn:E;
    [left; reflexivity|].
  right.
  assert (Hin : In (List.last (x :: l) "") (x :: l)) by (apply last_in_list; discriminate).
  rewrite <- E in Hin at 2. apply filter_In in Hin. destruct Hin as [Hin Hreal].
  split; [exact Hreal|].
  pose proof (split_on_free is_sep rest) as Hfree.
  rewrite List.Forall_forall in Hfree. apply Hfree. exact Hin.
Qed.

(** X8: what a line of the manifest contributes is a basename: the last
    component of the stripped line, ending in .lib, not empty, and free
    of separators, so that directories named in an old manifest never
    reach the new one. *)
Theorem manifest_line_gives_a_basename (line n : string) :
  basename_of_line line = Some n ->
  n = name (Path (Text.strip Text.is_quote (Text.strip Text.is_space line))) /\
  Text.endswith ".lib" n = true /\ real_part n = true /\ free_of is_sep n.
Proof.
  unfold basename_of_line.
  set (s := Text.strip Text.is_quote (Text.strip Text.is_space line)).
  destruct (negb (Text.truthy s) || Text.startswith "#" s); [discriminate|].
  destruct (Text.endswith ".lib" (name (Path s))) eqn:Eend; [|discriminate].
  intros [= <-]. split; [reflexivity|]. split; [exact Eend|].
  destruct (name_of_Path s) as [Hempty | Hreal]; [|exact Hreal].
  rewrite Hempty in Eend. discriminate Eend.
Qed.

Lemma manifest_line_gives_a_basename_witness :
  Text.endswith ".lib" "LLVMCore.lib" = true /\ free_of is_sep "LLVMCore.lib".
Proof.
  destruct (manifest_line_gives_a_basename
              ("  " +:+ String Text.quote "C:/old/lib\LLVMCore.lib" +:+ String Text.quote " ")
              "LLVMCore.lib") as (_ & He & _ & Hs); [vm_compute; reflexivity|].
  split; [exact He | exact Hs].
Defined.

(** X9: reading the manifest a run has written gives the basenames the
    run listed, in their order: with an absolute root and plain library
    names, of which the run listed at least one, the next run starts
    from exactly that list. *)
Theorem written_manifest_reads_back (w : world) (llvm_root : path) :
  exists_ w (llvm_root </> "lib") = true ->
  is_dir w (LLVM_LIBS_RSP w) = false ->
  absolute_path llvm_root = true ->
  forallb library_name (present w llvm_root) = true ->
  present w llvm_root <> [] ->
  exists w',
    generate_llvm_libs_rsp llvm_root w = (inr tt, w') /\
    existing_basenames w' = present w llvm_root /\
    lib_basenames w' llvm_root = present w llvm_root.
Proof.
  intros Hlib Hrsp Habs Hnames Hne. exists (manifest_written w llvm_root).
  split; [apply generate_llvm_libs_rsp_returns; assumption|].
  assert (Hread : existing_basenames (manifest_written w llvm_root) = present w llvm_root).
  { rewrite existing_basenames_manifest_written. unfold manifest_text.
    apply read_basenames_manifest;
      [apply absolute_path_join; [exact Habs | reflexivity] | exact Hne | exact Hnames]. }
  split; [exact Hread|].
  unfold lib_basenames. rewrite Hread. apply choose_basenames_listed. exact Hne.
Qed.

Lemma written_manifest_reads_back_witness :
  exists w',
    generate_llvm_libs_rsp (Path "C:\L") Examples.manifest_with_missing = (inr tt, w') /\
    existing_basenames w' = ["LLVMCore.lib"].
Proof.
  destruct (written_manifest_reads_back Examples.manifest_with_missing (Path "C:\L"))
    as (w' & Hrun & Hread & _);
    [vm_compute; reflexivity | vm_compute; reflexivity | vm_compute; reflexivity
     | vm_compute; reflexivity | vm_compute; discriminate |].
  exists w'. split; [exact Hrun|]. rewrite Hread. vm_compute. reflexivity.
Defined.

Lemma filter_partition_length {A} (f : A -> bool) (l : list A) :
  length (List.filter f l) + length (List.filter (fun x => negb (f x)) l) = length l.
Proof.
  induction l as [|a l IH]; [reflexivity|]. cbn [List.filter].
  destruct (f a); cbn [negb length]; lia.
Qed.

(** X10: every basename a run considers is either listed or reported:
    the number of libraries the closing message gives and the number the
    warning gives add up to the number of basenames; a warning is printed
    only for a positive number, and it names at most five of them. *)
Theorem listed_and_missing_add_up (w : world) (llvm_root : path) :
  exists_ w (llvm_root </> "lib") = true ->
  is_dir w (LLVM_LIBS_RSP w) = false ->
  exists w' libs,
    generate_llvm_libs_rsp llvm_root w = (inr tt, w') /\
    stdout w' = stdout w ++ warning w llvm_root ++ [Wrote_rsp (LLVM_LIBS_RSP w) libs] /\
    (warning w llvm_root = [] /\ libs = length (lib_basenames w llvm_root) \/
     exists count preview,
       warning w llvm_root = [Warning_libs_not_found count (llvm_root </> "lib") preview] /\
       0 < count /\ libs + count = length (lib_basenames w llvm_root) /\
       length preview <= 5 /\ length preview <= count).
Proof.
  intros Hlib Hrsp.
  exists (manifest_written w llvm_root), (length (present w llvm_root)).
  split; [apply generate_llvm_libs_rsp_returns; assumption|].
  split; [reflexivity|].
  assert (Hsum : length (present w llvm_root) + length (missing w llvm_root)
                 = length (lib_basenames w llvm_root)).
  { unfold present, missing.
    exact (filter_partition_length (fun n => exists_ w (llvm_root </> "lib" </> n))
                                   (lib_basenames w llvm_root)). }
  unfold warning. destruct (missing w llvm_root) as [|m ms] eqn:Em.
  - left. cbn [length] in Hsum. split; [reflexivity | lia].
  - right. exists (length (m :: ms)), (firstn 5 (m :: ms)).
    split; [reflexivity|]. rewrite length_firstn. cbn [length] in *. lia.
Qed.

Lemma listed_and_missing_add_up_witness :
  exists w',
    generate_llvm_libs_rsp (Path "C:\L") Examples.manifest_with_missing = (inr tt, w') /\
    stdout w' = [Warning_libs_not_found 1 (Path "C:\L\lib") ["gone.lib"];
                 Wrote_rsp (Path "C:\proj\scripts\llvm_libs.rsp") 1].
Proof.
  destruct (listed_and_missing_add_up Examples.manifest_with_missing (Path "C:\L"))
    as (w' & libs & Hrun & _); [vm_compute; reflexivity | vm_compute; reflexivity |].
  exists w'. split; [exact Hrun|].
  replace w' with (snd (generate_llvm_libs_rsp (Path "C:\L") Examples.manifest_with_missing))
    by (rewrite Hrun; reflexivity).
  vm_compute. reflexivity.
Defined.

Lemma generate_llvm_libs_rsp_unreadable (w : world) (llvm_root : path) :
  exists_ w (llvm_root </> "lib") = true ->
  is_dir w (LLVM_LIBS_RSP w) = true ->
  generate_llvm_libs_rsp llvm_root w = (inl (IsADirectoryError (LLVM_LIBS_RSP w)), w).
Proof.
  intros Hlib Hrsp. unfold is_dir in Hrsp.
  unfold generate_llvm_libs_rsp, bind, get. rewrite Hlib. cbn [negb].
  rewrite (exists_lookup w (LLVM_LIBS_RSP w)). unfold read_text.
  destruct (files w !! LLVM_LIBS_RSP w) as [[content|]|] eqn:E; try discriminate Hrsp.
  cbn beta iota. rewrite E. reflexivity.
Qed.

(** X11: manifest generation writes the manifest and nothing else: every
    other file, the environment and the error stream are as before; and
    when it raises, because the library directory is missing or the
    manifest cannot be read, it has written and printed nothing. *)
Theorem manifest_generation_touches_the_manifest_only (w : world) (llvm_root : path) :
  (forall p, p <> LLVM_LIBS_RSP w ->
             files (snd (generate_llvm_libs_rsp llvm_root w)) !! p = files w !! p) /\
  environ (snd (generate_llvm_libs_rsp llvm_root w)) = environ w /\
  stderr (snd (generate_llvm_libs_rsp llvm_root w)) = stderr w /\
  (forall e, fst (generate_llvm_libs_rsp llvm_root w) = inl e ->
             snd (generate_llvm_libs_rsp llvm_root w) = w).
Proof.
  destruct (exists_ w (llvm_root </> "lib")) eqn:Hlib.
  - destruct (is_dir w (LLVM_LIBS_RSP w)) eqn:Hrsp.
    + rewrite (generate_llvm_libs_rsp_unreadable w llvm_root Hlib Hrsp). cbn [fst snd]. auto.
    + rewrite (generate_llvm_libs_rsp_returns w llvm_root Hlib Hrsp). cbn [fst snd].
      split; [|split; [reflexivity | split; [reflexivity | discriminate]]].
      intros p Hp. unfold manifest_written. cbn [files].
      apply lookup_insert_ne. congruence.
  - rewrite (generate_llvm_libs_rsp_raises w llvm_root Hlib). cbn [fst snd]. auto.
Qed.

(** ** More on the script *)

Lemma joinpath_plain_inj (d : path) (a b : string) :
  plain_name a = true -> plain_name b = true -> d </> a = d </> b -> a = b.
Proof.
  intros Ha Hb. rewrite (joinpath_plain d a Ha), (joinpath_plain d b Hb).
  intros [= H]. apply app_inv_head in H. congruence.
Qed.

Lemma template_is_not_the_script (w : world) : REBUILD_AUTO_BAT w <> REBUILD_ALL_BAT w.
Proof.
  intros H. apply joinpath_plain_inj in H; [discriminate H | reflexivity | reflexivity].
Qed.

Lemma manifest_is_not_the_script (w : world) : REBUILD_AUTO_BAT w <> LLVM_LIBS_RSP w.
Proof.
  intros H. apply joinpath_plain_inj in H; [discriminate H | reflexivity | reflexivity].
Qed.

Lemma manifest_is_not_the_template (w : world) : LLVM_LIBS_RSP w <> REBUILD_ALL_BAT w.
Proof.
  intros H. apply joinpath_plain_inj in H; [discriminate H | reflexivity | reflexivity].
Qed.

Lemma generate_rebuild_auto_bat_no_line (w : world) (llvm_root : path) (content : string) :
  files w !! REBUILD_ALL_BAT w = Some (File content) ->
  pattern_search content = false ->
  generate_rebuild_auto_bat llvm_root w =
    (inl (ValueError "Could not find 'set LLVM_DIR=...' in rebuild_all.bat"), w).
Proof.
  intros Hfile Hnone. unfold generate_rebuild_auto_bat, bind, get.
  rewrite exists_lookup, Hfile. cbn [negb]. unfold read_text. rewrite Hfile, Hnone.
  reflexivity.
Qed.

Lemma generate_rebuild_auto_bat_no_template (w : world) (llvm_root : path) :
  files w !! REBUILD_ALL_BAT w = None ->
  generate_rebuild_auto_bat llvm_root w =
    (inl (FileNotFoundError ("Template not found: " +:+ path_str (REBUILD_ALL_BAT w))), w).
Proof.
  intros Hfile. unfold generate_rebuild_auto_bat, bind, get.
  rewrite exists_lookup, Hfile. reflexivity.
Qed.

Lemma generate_rebuild_auto_bat_unreadable (w : world) (llvm_root : path) :
  files w !! REBUILD_ALL_BAT w = Some Dir ->
  generate_rebuild_auto_bat llvm_root w = (inl (IsADirectoryError (REBUILD_ALL_BAT w)), w).
Proof.
  intros Hfile. unfold generate_rebuild_auto_bat, bind, get.
  rewrite exists_lookup, Hfile. cbn [negb]. unfold read_text. rewrite Hfile. reflexivity.
Qed.

(** The world script generation leaves when it returns. *)
Lemma generate_rebuild_auto_bat_success (w w1 : world) (llvm_root : path) :
  generate_rebuild_auto_bat llvm_root w = (inr tt, w1) ->
  exists content,
    files w !! REBUILD_ALL_BAT w = Some (File content) /\
    pattern_search content = true /\
    is_dir w (REBUILD_AUTO_BAT w) = false /\
    w1 = add_stdout (Wrote_bat (REBUILD_AUTO_BAT w) llvm_root)
           (set_files (<[REBUILD_AUTO_BAT w :=
                           File (pattern_sub_once ("set LLVM_DIR=" +:+ path_str llvm_root)
                                                  content)]> (files w)) w).
Proof.
  destruct (files w !! REBUILD_ALL_BAT w) as [[content|]|] eqn:Hfile.
  - destruct (pattern_search content) eqn:Hfound.
    + destruct (is_dir w (REBUILD_AUTO_BAT w)) eqn:Hscript.
      * rewrite (generate_rebuild_auto_bat_blocked w llvm_root content Hfile Hfound Hscript).
        discriminate.
      * rewrite (generate_rebuild_auto_bat_returns w llvm_root content Hfile Hfound Hscript).
        intros [= <-]. exists content. auto.
    + rewrite (generate_rebuild_auto_bat_no_line w llvm_root content Hfile Hfound).
      discriminate.
  - rewrite (generate_rebuild_auto_bat_unreadable w llvm_root Hfile). discriminate.
  - rewrite (generate_rebuild_auto_bat_no_template w llvm_root Hfile). discriminate.
Qed.

(** X12: script generation writes the generated script and nothing
    else: the template and the manifest, like every other file, are as
    before; and when it raises, for whatever reason, it has written and
    printed nothing. *)
Theorem script_generation_touches_the_script_only (w : world) (llvm_root : path) :
  (forall p, p <> REBUILD_AUTO_BAT w ->
             files (snd (generate_rebuild_auto_bat llvm_root w)) !! p = files w !! p) /\
  files (snd (generate_rebuild_auto_bat llvm_root w)) !! REBUILD_ALL_BAT w
    = files w !! REBUILD_ALL_BAT w /\
  files (snd (generate_rebuild_auto_bat llvm_root w)) !! LLVM_LIBS_RSP w
    = files w !! LLVM_LIBS_RSP w /\
  (forall e, fst (generate_rebuild_auto_bat llvm_root w) = inl e ->
             snd (generate_rebuild_auto_bat llvm_root w) = w).
Proof.
  assert (Hother : forall p, p <> REBUILD_AUTO_BAT w ->
            files (snd (generate_rebuild_auto_bat llvm_root w)) !! p = files w !! p).
  { intros p Hp. destruct (files w !! REBUILD_ALL_BAT w) as [[content|]|] eqn:Hfile.
    - destruct (pattern_search content) eqn:Hfound.
      + destruct (is_dir w (REBUILD_AUTO_BAT w)) eqn:Hscript.
        * rewrite (generate_rebuild_auto_bat_blocked w llvm_root content Hfile Hfound Hscript).
          reflexivity.
        * rewrite (generate_rebuild_auto_bat_returns w llvm_root content Hfile Hfound Hscript).
          cbn [snd add_stdout set_files files]. apply lookup_insert_ne. congruence.
      + rewrite (generate_rebuild_auto_bat_no_line w llvm_root content Hfile Hfound).
        reflexivity.
    - rewrite (generate_rebuild_auto_bat_unreadable w llvm_root Hfile). reflexivity.
    - rewrite (generate_rebuild_auto_bat_no_template w llvm_root Hfile). reflexivity. }
  split; [exact Hother|].
  split; [apply Hother; intros H; exact (template_is_not_the_script w (eq_sym H))|].
  split; [apply Hother; intros H; exact (manifest_is_not_the_script w (eq_sym H))|].
  intros e. destruct (files w !! REBUILD_ALL_BAT w) as [[content|]|] eqn:Hfile.
  - destruct (pattern_search content) eqn:Hfound.
    + destruct (is_dir w (REBUILD_AUTO_BAT w)) eqn:Hscript.
      * rewrite (generate_rebuild_auto_bat_blocked w llvm_root content Hfile Hfound Hscript).
        reflexivity.
      * rewrite (generate_rebuild_auto_bat_returns w llvm_root content Hfile Hfound Hscript).
        discriminate.
    + rewrite (generate_rebuild_auto_bat_no_line w llvm_root content Hfile Hfound).
      reflexivity.
  - rewrite (generate_rebuild_auto_bat_unreadable w llvm_root Hfile). reflexivity.
  - rewrite (generate_rebuild_auto_bat_no_template w llvm_root Hfile). reflexivity.
Qed.

(** X13: script generation is idempotent: a second run for the same root
    reads the same template, returns normally and leaves every file as
    the first run left it. *)
Theorem script_generation_is_idempotent (w w1 : world) (llvm_root : path) :
  generate_rebuild_auto_bat llvm_root w = (inr tt, w1) ->
  exists w2,
    generate_rebuild_auto_bat llvm_root w1 = (inr tt, w2) /\ files w2 = files w1.
Proof.
  intros H. apply generate_rebuild_auto_bat_success in H.
  destruct H as (content & Hfile & Hfound & _ & ->).
  set (out := pattern_sub_once ("set LLVM_DIR=" +:+ path_str llvm_root) content).
  set (w1 := add_stdout _ _).
  assert (Hfile1 : files w1 !! REBUILD_ALL_BAT w1 = Some (File content)).
  { change (<[REBUILD_AUTO_BAT w := File out]> (files w) !! REBUILD_ALL_BAT w
            = Some (File content)).
    rewrite lookup_insert_ne by apply template_is_not_the_script. exact Hfile. }
  assert (Hscript1 : is_dir w1 (REBUILD_AUTO_BAT w1) = false).
  { unfold is_dir.
    change (files w1 !! REBUILD_AUTO_BAT w1)
      with (<[REBUILD_AUTO_BAT w := File out]> (files w) !! REBUILD_AUTO_BAT w).
    rewrite lookup_insert_eq. reflexivity. }
  eexists.
  split; [apply (generate_rebuild_auto_bat_returns w1 llvm_root content Hfile1 Hfound Hscript1)|].
  change (<[REBUILD_AUTO_BAT w := File out]> (<[REBUILD_AUTO_BAT w := File out]> (files w))
          = <[REBUILD_AUTO_BAT w := File out]> (files w)).
  apply insert_insert_eq.
Qed.

Lemma script_generation_is_idempotent_witness :
  exists w1 w2,
    generate_rebuild_auto_bat (Path "C:\L") Examples.project = (inr tt, w1) /\
    generate_rebuild_auto_bat (Path "C:\L") w1 = (inr tt, w2) /\ files w2 = files w1.
Proof.
  exists (snd (generate_rebuild_auto_bat (Path "C:\L") Examples.project)).
  assert (H1 : generate_rebuild_auto_bat (Path "C:\L") Examples.project
               = (inr tt, snd (generate_rebuild_auto_bat (Path "C:\L") Examples.project)))
    by (apply run_result; vm_compute; reflexivity).
  destruct (script_generation_is_idempotent _ _ _ H1) as (w2 & H2 & Hsame).
  exists w2. auto.
Defined.

Lemma replace_first_again (new_line : string) (ls : list string) :
  sets_LLVM_DIR new_line = true ->
  replace_first new_line (replace_first new_line ls) = replace_first new_line ls.
Proof.
  intros Hnew. induction ls as [|l ls IH]; [reflexivity|]. cbn [replace_first].
  destruct (sets_LLVM_DIR l) eqn:E; cbn [replace_first].
  - rewrite Hnew. reflexivity.
  - rewrite E, IH. reflexivity.
Qed.

Lemma replace_first_free (new_line : string) (ls : list string) :
  free_of Text.is_lf new_line -> Forall (free_of Text.is_lf) ls ->
  Forall (free_of Text.is_lf) (replace_first new_line ls).
Proof.
  intros Hnew. induction 1 as [|l ls Hl Hls IH]; [constructor|]. cbn [replace_first].
  destruct (sets_LLVM_DIR l); constructor; assumption.
Qed.

Lemma replace_first_not_nil (new_line : string) (ls : list string) :
  ls <> [] -> replace_first new_line ls <> [].
Proof.
  destruct ls as [|l ls]; [congruence|]. intros _. cbn [replace_first].
  destruct (sets_LLVM_DIR l); discriminate.
Qed.

Lemma new_line_sets_LLVM_DIR (x : string) : sets_LLVM_DIR ("set LLVM_DIR=" +:+ x) = true.
Proof. destruct x; vm_compute; reflexivity. Qed.

(** X14: the substitution reaches a fixed point at once: for a root
    whose text holds no line feed, substituting the root into a script
    that was generated for it gives that script again, so a generated
    script can serve as the template of the next generation. *)
Theorem substitution_is_idempotent (llvm_root : path) (content : string) :
  free_of Text.is_lf (path_str llvm_root) ->
  let new_line := "set LLVM_DIR=" +:+ path_str llvm_root in
  pattern_sub_once new_line (pattern_sub_once new_line content)
  = pattern_sub_once new_line content.
Proof.
  intros Hroot new_line.
  assert (Hfree : free_of Text.is_lf new_line).
  { unfold free_of, new_line. rewrite all_chars_app, Hroot. reflexivity. }
  unfold pattern_sub_once at 1 2.
  rewrite lines_of_join.
  - rewrite replace_first_again by apply new_line_sets_LLVM_DIR. reflexivity.
  - apply replace_first_not_nil. apply split_on_not_nil.
  - apply replace_first_free; [exact Hfree | apply split_on_free].
Qed.

Lemma substitution_is_idempotent_witness :
  free_of Text.is_lf (path_str (Path "C:\L")) /\
  pattern_sub_once ("set LLVM_DIR=" +:+ path_str (Path "C:\L"))
    (pattern_sub_once ("set LLVM_DIR=" +:+ path_str (Path "C:\L"))
       ("a" +:+ nl +:+ "set LLVM_DIR=x" +:+ nl +:+ "b"))
  = "a" +:+ nl +:+ "set LLVM_DIR=C:\L" +:+ nl +:+ "b".
Proof.
  split; [vm_compute; reflexivity|].
  rewrite (substitution_is_idempotent (Path "C:\L")
             ("a" +:+ nl +:+ "set LLVM_DIR=x" +:+ nl +:+ "b"))
    by (vm_compute; reflexivity).
  vm_compute. reflexivity.
Defined.

(** ** The whole run *)

(** [main] once a root is detected: the two generation steps in their
    order, the build after them unless it is skipped. *)
Lemma main_steps (w : world) (llvm_root : path) :
  detect_llvm_path w (parse_llvm (argv w) None) = Some llvm_root ->
  main w =
    match generate_llvm_libs_rsp (os_resolve w llvm_root)
            (add_stdout (Using_LLVM (os_resolve w llvm_root)) w) with
    | (inl e, w1) => (inl e, w1)
    | (inr _, w1) =>
        match generate_rebuild_auto_bat (os_resolve w llvm_root) w1 with
        | (inl e, w2) => (inl e, w2)
        | (inr _, w2) =>
            if existsb (String.eqb "--no-run") (argv w)
            then (inr 0%Z, add_stdout Skipping_build w2)
            else run_build w2
        end
    end.
Proof.
  intros Hsome. unfold main, bind, get. rewrite Hsome. unfold print at 1. cbn beta iota.
  destruct (generate_llvm_libs_rsp _ _) as [[e|[]] w1]; [reflexivity|].
  destruct (generate_rebuild_auto_bat _ w1) as [[e|[]] w2]; [reflexivity|].
  destruct (existsb _ _); reflexivity.
Qed.

(** X15: a failing step ends the run.  When the detected root has no
    lib directory, [main] raises after its first message, no file is
    written and the build is not started.  When the template is missing,
    [main] raises after the manifest is written: the manifest stays, no
    script is written and the build is not started.  The process exits
    with status 1 in both cases. *)
Theorem failing_step_ends_the_run (w : world) (root0 : path) :
  detect_llvm_path w (parse_llvm (argv w) None) = Some root0 ->
  let llvm_root := os_resolve w root0 in
  (exists_ w (llvm_root </> "lib") = false ->
   main w = (inl (FileNotFoundError ("LLVM lib directory not found: "
                                     +:+ path_str (llvm_root </> "lib"))),
             add_stdout (Using_LLVM llvm_root) w) /\
   exit_status (fst (main w)) = 1%Z) /\
  (exists_ w (llvm_root </> "lib") = true ->
   is_dir w (LLVM_LIBS_RSP w) = false ->
   files w !! REBUILD_ALL_BAT w = None ->
   fst (main w) = inl (FileNotFoundError ("Template not found: "
                                          +:+ path_str (REBUILD_ALL_BAT w))) /\
   files (snd (main w)) = <[LLVM_LIBS_RSP w := File (manifest_text w llvm_root)]> (files w) /\
   files (snd (main w)) !! REBUILD_AUTO_BAT w = files w !! REBUILD_AUTO_BAT w /\
   exit_status (fst (main w)) = 1%Z).
Proof.
  intros Hsome llvm_root. rewrite (main_steps w root0 Hsome). fold llvm_root. split.
  - intros Hlib.
    rewrite (generate_llvm_libs_rsp_raises (add_stdout (Using_LLVM llvm_root) w) llvm_root Hlib).
    split; reflexivity.
  - intros Hlib Hrsp Htpl.
    rewrite (generate_llvm_libs_rsp_returns (add_stdout (Using_LLVM llvm_root) w)
               llvm_root Hlib Hrsp).
    set (w1 := manifest_written _ _).
    assert (Htpl1 : files w1 !! REBUILD_ALL_BAT w1 = None).
    { change (<[LLVM_LIBS_RSP w := File (manifest_text w llvm_root)]> (files w)
                !! REBUILD_ALL_BAT w = None).
      rewrite lookup_insert_ne by apply manifest_is_not_the_template. exact Htpl. }
    rewrite (generate_rebuild_auto_bat_no_template w1 llvm_root Htpl1).
    cbn [fst snd exit_status].
    split; [reflexivity|]. split; [reflexivity|]. split; [|reflexivity].
    change (<[LLVM_LIBS_RSP w := File (manifest_text w llvm_root)]> (files w)
              !! REBUILD_AUTO_BAT w = files w !! REBUILD_AUTO_BAT w).
    apply lookup_insert_ne. intros H. exact (manifest_is_not_the_script w (eq_sym H)).
Qed.

Lemma failing_step_ends_the_run_witness :
  fst (main Examples.headers_only_root)
    = inl (FileNotFoundError "LLVM lib directory not found: C:\L\lib") /\
  fst (main Scenes.no_template)
    = inl (FileNotFoundError "Template not found: C:\proj\scripts\rebuild_all.bat") /\
  exists_ (snd (main Scenes.no_template)) (LLVM_LIBS_RSP Scenes.no_template) = true.
Proof.
  split; [|split].
  - destruct (proj1 (failing_step_ends_the_run Examples.headers_only_root (Path "C:\L")
                       ltac:(vm_compute; reflexivity))) as [Hmain _];
      [vm_compute; reflexivity|].
    rewrite Hmain. vm_compute. reflexivity.
  - destruct (proj2 (failing_step_ends_the_run Scenes.no_template (Path "C:\L")
                       ltac:(vm_compute; reflexivity))) as (Hmain & _);
      [vm_compute; reflexivity | vm_compute; reflexivity | vm_compute; reflexivity |].
    rewrite Hmain. vm_compute. reflexivity.
  - destruct (proj2 (failing_step_ends_the_run Scenes.no_template (Path "C:\L")
                       ltac:(vm_compute; reflexivity))) as (_ & Hfiles & _);
      [vm_compute; reflexivity | vm_compute; reflexivity | vm_compute; reflexivity |].
    unfold exists_. rewrite Hfiles. rewrite lookup_insert_eq. reflexivity.
Defined.

(** X16: the whole run from the world it starts in.  With a root
    detected whose lib directory exists, a template with a line setting
    the variable, and no directory in the place of the manifest or of
    the script to generate, [main] writes the manifest and the script
    and no other file; with the flag
    that skips the build it returns 0 and leaves exactly these files;
    without it the build script is started on exactly these files, and
    [main] returns its status and leaves the files it leaves. *)
Theorem run_from_the_initial_world (w : world) (root0 : path) (content : string) :
  detect_llvm_path w (parse_llvm (argv w) None) = Some root0 ->
  let llvm_root := os_resolve w root0 in
  let generated :=
    <[REBUILD_AUTO_BAT w :=
        File (pattern_sub_once ("set LLVM_DIR=" +:+ path_str llvm_root) content)]>
      (<[LLVM_LIBS_RSP w := File (manifest_text w llvm_root)]> (files w)) in
  exists_ w (llvm_root </> "lib") = true ->
  is_dir w (LLVM_LIBS_RSP w) = false ->
  files w !! REBUILD_ALL_BAT w = Some (File content) ->
  pattern_search content = true ->
  is_dir w (REBUILD_AUTO_BAT w) = false ->
  (existsb (String.eqb "--no-run") (argv w) = true ->
   fst (main w) = inr 0%Z /\ files (snd (main w)) = generated /\
   stdout (snd (main w)) =
     stdout w ++ Using_LLVM llvm_root :: warning w llvm_root ++
       [Wrote_rsp (LLVM_LIBS_RSP w) (length (present w llvm_root));
        Wrote_bat (REBUILD_AUTO_BAT w) llvm_root; Skipping_build]) /\
  (existsb (String.eqb "--no-run") (argv w) = false ->
   fst (main w) = inr (fst (shell w (REBUILD_AUTO_BAT w) generated)) /\
   files (snd (main w)) = snd (shell w (REBUILD_AUTO_BAT w) generated)).
Proof.
  intros Hsome llvm_root generated Hlib Hrsp Htpl Hfound Hscript.
  rewrite (main_steps w root0 Hsome). fold llvm_root.
  rewrite (generate_llvm_libs_rsp_returns (add_stdout (Using_LLVM llvm_root) w)
             llvm_root Hlib Hrsp).
  set (w1 := manifest_written _ _).
  assert (Htpl1 : files w1 !! REBUILD_ALL_BAT w1 = Some (File content)).
  { change (<[LLVM_LIBS_RSP w := File (manifest_text w llvm_root)]> (files w)
              !! REBUILD_ALL_BAT w = Some (File content)).
    rewrite lookup_insert_ne by apply manifest_is_not_the_template. exact Htpl. }
  assert (Hscript1 : is_dir w1 (REBUILD_AUTO_BAT w1) = false).
  { unfold is_dir.
    change (files w1 !! REBUILD_AUTO_BAT w1)
      with (<[LLVM_LIBS_RSP w := File (manifest_text w llvm_root)]> (files w)
              !! REBUILD_AUTO_BAT w).
    rewrite lookup_insert_ne
      by (intros H; exact (manifest_is_not_the_script w (eq_sym H))).
    exact Hscript. }
  rewrite (generate_rebuild_auto_bat_returns w1 llvm_root content Htpl1 Hfound Hscript1).
  split; intros Hflag; rewrite Hflag.
  - split; [reflexivity|]. split; [reflexivity|].
    cbn [snd add_stdout set_files stdout]. unfold w1, manifest_written.
    cbn [stdout add_stdout]. rewrite <- !app_assoc. reflexivity.
  - unfold run_build, bind, get, print, subprocess_call.
    cbn [add_stdout set_files files shell].
    change (files w1) with (<[LLVM_LIBS_RSP w := File (manifest_text w llvm_root)]> (files w)).
    change (REBUILD_AUTO_BAT w1) with (REBUILD_AUTO_BAT w).
    fold generated. change (shell w1) with (shell w).
    repeat match goal with
           | |- context [shell w ?p generated] =>
               progress change p with (REBUILD_AUTO_BAT w)
           end.
    destruct (shell w (REBUILD_AUTO_BAT w) generated) as [code fs]. split; reflexivity.
Qed.

Lemma run_from_the_initial_world_witness :
  fst (main Examples.project_no_run) = inr 0%Z /\
  exists_ (snd (main Examples.project_no_run)) (REBUILD_AUTO_BAT Examples.project_no_run)
    = true /\
  fst (main Examples.project_run) = inr 7%Z.
Proof.
  split; [|split].
  - destruct (run_from_the_initial_world Examples.project_no_run (Path "C:\L")
                ("@echo off" +:+ nl +:+ "set LLVM_DIR=C:\old" +:+ nl
                 +:+ "set LLVM_DIR=C:\older" +:+ nl +:+ "call build" +:+ nl))
      as [Hskip _];
      [vm_compute; reflexivity | vm_compute; reflexivity | vm_compute; reflexivity
       | vm_compute; reflexivity | vm_compute; reflexivity | vm_compute; reflexivity |].
    destruct Hskip as (Hcode & _); [vm_compute; reflexivity | exact Hcode].
  - destruct (run_from_the_initial_world Examples.project_no_run (Path "C:\L")
                ("@echo off" +:+ nl +:+ "set LLVM_DIR=C:\old" +:+ nl
                 +:+ "set LLVM_DIR=C:\older" +:+ nl +:+ "call build" +:+ nl))
      as [Hskip _];
      [vm_compute; reflexivity | vm_compute; reflexivity | vm_compute; reflexivity
       | vm_compute; reflexivity | vm_compute; reflexivity | vm_compute; reflexivity |].
    destruct Hskip as (_ & Hfiles & _); [vm_compute; reflexivity|].
    unfold exists_. rewrite Hfiles, lookup_insert_eq. reflexivity.
  - destruct (run_from_the_initial_world Examples.project_run (Path "C:\L")
                ("@echo off" +:+ nl +:+ "set LLVM_DIR=C:\old" +:+ nl
                 +:+ "set LLVM_DIR=C:\older" +:+ nl +:+ "call build" +:+ nl))
      as [_ Hrun];
      [vm_compute; reflexivity | vm_compute; reflexivity | vm_compute; reflexivity
       | vm_compute; reflexivity | vm_compute; reflexivity | vm_compute; reflexivity |].
    destruct Hrun as (Hcode & _); [vm_compute; reflexivity|].
    rewrite Hcode. reflexivity.
Defined.

(** ** The directory scan *)

(** An entry of a directory is the directory joined with the entry's name. *)
Lemma entry_is_joined_name (w : world) (d p : path) :
  In p (iterdir w d) -> plain_name (name p) = true -> d </> name p = p.
Proof.
  intros Hin Hplain. apply iterdir_child in Hin. destruct Hin as (Hparent & Hparts & _).
  rewrite (joinpath_plain d (name p) Hplain). subst d. unfold parent, name.
  cbn [drive root parts]. destruct p as [dr rt ps]. cbn [drive root parts] in *.
  f_equal. symmetry. apply app_removelast_last. exact Hparts.
Qed.

Lemma insert_sorted_length (x : string) (l : list string) :
  length (Text.insert_sorted x l) = S (length l).
Proof.
  induction l as [|y l IH]; [reflexivity|]. cbn [Text.insert_sorted].
  destruct (String.leb x y); cbn [length]; [reflexivity | rewrite IH; reflexivity].
Qed.

Lemma sorted_length (l : list string) : length (Text.sorted l) = length l.
Proof.
  induction l as [|x l IH]; [reflexivity|]. cbn [Text.sorted fold_right].
  fold (Text.sorted l). rewrite insert_sorted_length, IH. reflexivity.
Qed.

Lemma filter_none {A} (f : A -> bool) (l : list A) :
  (forall x, In x l -> f x = false) -> List.filter f l = [].
Proof.
  induction l as [|a l IH]; [reflexivity|]. intros H. cbn [List.filter].
  rewrite (H a (or_introl eq_refl)). apply IH. intros x Hx. apply H. right. exact Hx.
Qed.

(** X17: a run that falls back to the scan of the library directory
    never warns: when the manifest gives no basename and the matching
    entries of the directory have plain names, every one of them is
    listed, in increasing order of their names, nothing is missing, and
    the only message is the closing one, with their number. *)
Theorem scan_lists_every_entry (w : world) (llvm_root : path) :
  exists_ w (llvm_root </> "lib") = true ->
  is_dir w (LLVM_LIBS_RSP w) = false ->
  existing_basenames w = [] ->
  (forall p, In p (glob_llvm_libs w (llvm_root </> "lib")) -> plain_name (name p) = true) ->
  exists w',
    generate_llvm_libs_rsp llvm_root w = (inr tt, w') /\
    present w llvm_root = Text.sorted (map name (glob_llvm_libs w (llvm_root </> "lib"))) /\
    missing w llvm_root = [] /\
    stdout w' = stdout w ++
                  [Wrote_rsp (LLVM_LIBS_RSP w)
                             (length (glob_llvm_libs w (llvm_root </> "lib")))].
Proof.
  intros Hlib Hrsp Hnone Hplain.
  assert (Hscan : lib_basenames w llvm_root
                  = Text.sorted (map name (glob_llvm_libs w (llvm_root </> "lib")))).
  { unfold lib_basenames. rewrite Hnone. reflexivity. }
  assert (Hexists : forall n, In n (lib_basenames w llvm_root) ->
                     exists_ w (llvm_root </> "lib" </> n) = true).
  { intros n Hn. rewrite Hscan, sorted_In, in_map_iff in Hn.
    destruct Hn as (p & <- & Hp). pose proof (Hplain p Hp) as Hname.
    unfold glob_llvm_libs in Hp. apply filter_In in Hp. destruct Hp as [Hp _].
    rewrite (entry_is_joined_name w _ p Hp Hname).
    apply iterdir_child in Hp. tauto. }
  assert (Hpresent : present w llvm_root = lib_basenames w llvm_root).
  { unfold present. apply filter_all. exact Hexists. }
  assert (Hmissing : missing w llvm_root = []).
  { unfold missing. apply filter_none. intros n Hn. rewrite (Hexists n Hn). reflexivity. }
  exists (manifest_written w llvm_root).
  split; [apply generate_llvm_libs_rsp_returns; assumption|].
  split; [rewrite Hpresent; exact Hscan|]. split; [exact Hmissing|].
  unfold manifest_written. cbn [stdout]. unfold warning.
  rewrite Hmissing, Hpresent, Hscan, sorted_length, length_map. reflexivity.
Qed.

Lemma scan_lists_every_entry_witness :
  exists w',
    generate_llvm_libs_rsp (Path "C:\L") Examples.fresh_project = (inr tt, w') /\
    present Examples.fresh_project (Path "C:\L") = ["LLVMCore.lib"; "LLVMSupport.lib"] /\
    stdout w' = [Wrote_rsp (Path "C:\proj\scripts\llvm_libs.rsp") 2].
Proof.
  destruct (scan_lists_every_entry Examples.fresh_project (Path "C:\L"))
    as (w' & Hrun & Hpresent & _ & Hout).
  - vm_compute; reflexivity.
  - vm_compute; reflexivity.
  - vm_compute; reflexivity.
  - intros p Hp.
    assert (Hall : forallb (fun q => plain_name (name q))
                     (glob_llvm_libs Examples.fresh_project (Path "C:\L" </> "lib")) = true)
      by (vm_compute; reflexivity).
    rewrite forallb_forall in Hall. exact (Hall p Hp).
  - exists w'. split; [exact Hrun|]. split; [rewrite Hpresent; vm_compute; reflexivity|].
    rewrite Hout. vm_compute. reflexivity.
Defined.

(** ** Where a basename takes the manifest out of the library directory *)

Lemma firstn_length_app {A} (l r : list A) : firstn (length l) (l ++ r) = l.
Proof. induction l as [|a l IH]; [reflexivity|]. simpl. rewrite IH. reflexivity. Qed.

(** A plain basename is looked up, and listed, below the library
    directory. *)
Lemma plain_basename_stays_under_lib (d : path) (n : string) :
  plain_name n = true -> is_under d (d </> n) = true.
Proof.
  intros Hn. rewrite (joinpath_plain d n Hn). unfold is_under. cbn [drive root parts].
  rewrite String.eqb_refl, Bool.eqb_reflx, firstn_length_app.
  cbn [andb]. apply bool_decide_eq_true. reflexivity.
Qed.

(** C4 does not hold of the code for a basename with a drive prefix.
    The line x\d:evil.lib of the manifest gives the basename d:evil.lib;
    joined to the library directory C:\L\lib it is the path d:evil.lib of
    another drive, which exists, while nothing of that name exists under
    the library directory.  The run lists that path in the manifest and
    prints no warning, where the documentation of the function promises
    paths under the root. *)
Theorem drive_prefixed_basename_leaves_lib :
  lib_basenames Scenes.drive_prefixed_name (Path "C:\L") = ["d:evil.lib"] /\
  Path "C:\L" </> "lib" </> "d:evil.lib" = mk_path "d:" false ["evil.lib"] /\
  is_under (Path "C:\L" </> "lib") (Path "C:\L" </> "lib" </> "d:evil.lib") = false /\
  exists_ Scenes.drive_prefixed_name (mk_path "C:" true ["L"; "lib"; "d:evil.lib"]) = false /\
  exists_ Scenes.drive_prefixed_name (mk_path "C:" true ["L"; "lib"; "evil.lib"]) = false /\
  fst (generate_llvm_libs_rsp (Path "C:\L") Scenes.drive_prefixed_name) = inr tt /\
  files (snd (generate_llvm_libs_rsp (Path "C:\L") Scenes.drive_prefixed_name))
    !! LLVM_LIBS_RSP Scenes.drive_prefixed_name
  = Some (File (String Text.quote "d:evil.lib" +:+ String Text.quote "" +:+ nl)) /\
  stdout (snd (generate_llvm_libs_rsp (Path "C:\L") Scenes.drive_prefixed_name))
  = [Wrote_rsp (Path "C:\proj\scripts\llvm_libs.rsp") 1].
Proof.
  split; [vm_compute; reflexivity|].
  split; [vm_compute; reflexivity|].
  split; [vm_compute; reflexivity|].
  split; [vm_compute; reflexivity|].
  split; [vm_compute; reflexivity|].
  split; [vm_compute; reflexivity|].
  split; [vm_compute; reflexivity|].
  vm_compute. reflexivity.
Qed.
